(** * GenAI Stack workflow builder: chunking, prompt construction,
      validation and execution

    A shallow embedding of
    - [DocumentProcessor.chunk_text], [LLMService.generate_response],
      [LLMService.perform_web_search], [WorkflowEngine.execute] and
      [WorkflowEngine._retrieve_context] of the reference backend (Python),
    - [validateWorkflow] and [buildStack] of [WorkflowEditor.tsx],
      [executeWorkflow] and [sendMessage] of [ChatInterface.tsx], and the
      [validateWorkflow] of the architecture notes (TypeScript),
    - [updateNodeConfig] of [WorkflowEditor.tsx], [addComponent] and
      [getDefaultConfig] of [ComponentLibrary.tsx], [handleFileUpload] of
      [ConfigPanel.tsx],
    - [DocumentProcessor.extract_text], [VectorStore.add_documents] and the
      endpoint [upload_document] of the reference backend.

    Strings are [string]s of 8-bit characters: a character stands for one
    code point below 256 (Python) or one code unit below 256 (JavaScript).
    Integers of the Python code are [Z]; lengths are [nat]. *)

From Stdlib Require Import String Ascii List ZArith Bool Lia DecimalString DecimalNat.
Import ListNotations.
Local Open Scope string_scope.
Local Open Scope list_scope.

(** ** Searching a string *)

Module Str.

Definition nl : string := String "010"%char EmptyString.
Definition dquote : string := String "034"%char EmptyString.

(** [s.startswith(old)]: what follows [old] at the start of [s]. *)
Fixpoint strip_prefix (old s : string) : option string :=
  match old with
  | EmptyString => Some s
  | String a old' =>
      match s with
      | EmptyString => None
      | String b s' => if Ascii.eqb a b then strip_prefix old' s' else None
      end
  end.

(** Where [old] first occurs in [s]: what precedes the occurrence and what
    follows it ([s.find(old)] in Python, [s.indexOf(old)] in JavaScript). *)
Fixpoint cut (old s : string) : option (string * string) :=
  match strip_prefix old s with
  | Some after => Some (EmptyString, after)
  | None =>
      match s with
      | EmptyString => None
      | String c rest =>
          match cut old rest with
          | Some (before, after) => Some (String c before, after)
          | None => None
          end
      end
  end.

(** Decimal text of a length. *)
Definition decimal (n : nat) : string := NilZero.string_of_uint (Nat.to_uint n).

End Str.

(** ** Python string primitives *)

Module Py.

(** [str.isspace] on one character, for code points below 256: the ASCII
    controls 9-13 and 28-31, the space, NEL (133) and the no-break space
    (160). These are the separators of [str.split()] without argument. *)
Definition isspace (c : ascii) : bool :=
  let n := nat_of_ascii c in
  (((9 <=? n) && (n <=? 13)) || ((28 <=? n) && (n <=? 32))
   || (n =? 133) || (n =? 160))%nat.

Definition nonempty (s : string) : bool :=
  match s with EmptyString => false | String _ _ => true end.

(** [cur] is the word being read; a word ends at a separator or at the end
    of the text, and empty words are never produced. *)
Fixpoint split_from (cur : string) (s : string) : list string :=
  match s with
  | EmptyString => if nonempty cur then [cur] else []
  | String c rest =>
      if isspace c
      then (if nonempty cur then cur :: split_from "" rest
            else split_from "" rest)
      else split_from (cur ++ String c "")%string rest
  end.

(** [text.split()] *)
Definition split (text : string) : list string := split_from "" text.

(** [sep.join(parts)] *)
Definition join (sep : string) (parts : list string) : string :=
  String.concat sep parts.

(** [s.replace(old, new)] for a non-empty [old]: every occurrence, found
    from left to right without overlap, is replaced. [fuel] bounds the number
    of replacements; [String.length s] is always enough. *)
Fixpoint replace_fuel (fuel : nat) (old new s : string) : string :=
  match fuel with
  | O => s
  | S fuel' =>
      match Str.cut old s with
      | Some (before, after) =>
          (before ++ new ++ replace_fuel fuel' old new after)%string
      | None => s
      end
  end.

Definition replace (s old new : string) : string :=
  replace_fuel (String.length s) old new s.

End Py.

(** ** DocumentProcessor *)

Module DocumentProcessor.

(** The loop variables of [chunk_text]. *)
Record loop_state := {
  chunks : list string;
  current_chunk : list string;
  current_size : Z
}.

Definition initial : loop_state :=
  {| chunks := []; current_chunk := []; current_size := 0 |}.

(** The body of [for word in words]. *)
Definition step (chunk_size : Z) (st : loop_state) (word : string) : loop_state :=
  let current_chunk' := current_chunk st ++ [word] in
  let current_size' := (current_size st + (Z.of_nat (String.length word) + 1))%Z in
  if (current_size' >=? chunk_size)%Z
  then {| chunks := chunks st ++ [Py.join " " current_chunk'];
          current_chunk := [];
          current_size := 0 |}
  else {| chunks := chunks st;
          current_chunk := current_chunk';
          current_size := current_size' |}.

Definition finish (st : loop_state) : list string :=
  match current_chunk st with
  | [] => chunks st
  | _ :: _ => chunks st ++ [Py.join " " (current_chunk st)]
  end.

Definition chunk_text (text : string) (chunk_size : Z) : list string :=
  finish (fold_left (step chunk_size) (Py.split text) initial).

(** The same loop with every chunk kept as its list of words; the chunks of
    [chunk_text] are these groups joined (lemma [chunk_text_groups]). *)
Record group_state := {
  groups : list (list string);
  g_current : list string;
  g_size : Z
}.

Definition g_initial : group_state :=
  {| groups := []; g_current := []; g_size := 0 |}.

Definition g_step (chunk_size : Z) (st : group_state) (word : string) : group_state :=
  let cur := g_current st ++ [word] in
  let size := (g_size st + (Z.of_nat (String.length word) + 1))%Z in
  if (size >=? chunk_size)%Z
  then {| groups := groups st ++ [cur]; g_current := []; g_size := 0 |}
  else {| groups := groups st; g_current := cur; g_size := size |}.

Definition g_finish (st : group_state) : list (list string) :=
  match g_current st with
  | [] => groups st
  | _ :: _ => groups st ++ [g_current st]
  end.

Definition chunk_groups (chunk_size : Z) (words : list string) : list (list string) :=
  g_finish (fold_left (g_step chunk_size) words g_initial).

(** The running length the loop keeps: each word counts its characters
    and one separator. *)
Definition acc_len (ws : list string) : Z :=
  fold_right (fun w n => (Z.of_nat (String.length w) + 1 + n)%Z) 0%Z ws.

(** Whitespace normalisation, written without [split]: separators at both
    ends are dropped and every inner run of separators becomes one space. *)
Inductive place := AtStart | InWord | InGap.

Fixpoint squeeze (p : place) (s : string) : string :=
  match s with
  | EmptyString => EmptyString
  | String c rest =>
      if Py.isspace c
      then squeeze (match p with AtStart => AtStart | _ => InGap end) rest
      else match p with
           | InGap => String " " (String c (squeeze InWord rest))
           | _ => String c (squeeze InWord rest)
           end
  end.

Definition normalize_whitespace (text : string) : string := squeeze AtStart text.

(** What a gap owes: one space before the remaining words, if any. *)
Definition after_gap (ws : list string) : string :=
  match ws with
  | [] => ""
  | _ :: _ => (" " ++ Py.join " " ws)%string
  end.

(** A word of [split]: not empty, and free of separators. *)
Fixpoint no_space (s : string) : bool :=
  match s with
  | EmptyString => true
  | String c rest => negb (Py.isspace c) && no_space rest
  end.

Definition is_word (w : string) : Prop :=
  Py.nonempty w = true /\ no_space w = true.

(** A chunk that the loop emitted: it reached [n], and no shorter non-empty
    run of its words had. *)
Definition minimal (n : Z) (g : list string) : Prop :=
  forall p q, g = p ++ q -> p <> [] -> q <> [] -> (acc_len p < n)%Z.

Definition emitted (n : Z) (g : list string) : Prop :=
  g <> [] /\ (n <= acc_len g)%Z /\ minimal n g.

(** The string loop and the word-group loop run in step. *)
Definition same_state (st : loop_state) (gst : group_state) : Prop :=
  chunks st = map (Py.join " ") (groups gst)
  /\ current_chunk st = g_current gst
  /\ current_size st = g_size gst.

(** The loop invariant, after the words [seen]. *)
Record invariant (n : Z) (seen : list string) (st : group_state) : Prop := {
  inv_words : List.concat (groups st) ++ g_current st = seen;
  inv_size : g_size st = acc_len (g_current st);
  inv_groups : Forall (emitted n) (groups st);
  inv_current : g_current st = [] \/ (acc_len (g_current st) < n)%Z
}.

End DocumentProcessor.

(** ** JavaScript string primitives *)

Module Js.

(** White space and line terminators of [String.prototype.trim], for code
    units below 256. *)
Definition isspace (c : ascii) : bool :=
  let n := nat_of_ascii c in
  (((9 <=? n) && (n <=? 13)) || (n =? 32) || (n =? 160))%nat.

Fixpoint trimStart (s : string) : string :=
  match s with
  | EmptyString => EmptyString
  | String c rest => if isspace c then trimStart rest else s
  end.

(** [trimEnd], right to left: a character is kept when it is not a space
    or when something is kept after it. *)
Fixpoint trimEnd (s : string) : string :=
  match s with
  | EmptyString => EmptyString
  | String c rest =>
      match trimEnd rest with
      | EmptyString => if isspace c then EmptyString else String c EmptyString
      | kept => String c kept
      end
  end.

Definition trim (s : string) : string := trimEnd (trimStart s).

(** Truthiness of a string. *)
Definition truthy (s : string) : bool :=
  match s with EmptyString => false | String _ _ => true end.

(** [GetSubstitution] of the language standard for a string pattern (no
    capture groups): in the replacement text [$$] is a dollar sign, [$&]
    the matched text, [$`] what precedes the match and [$'] what follows
    it; a dollar sign before anything else stands for itself. *)
Fixpoint get_substitution (matched before after template : string) : string :=
  match template with
  | EmptyString => EmptyString
  | String c tail =>
      if Ascii.eqb c "$"
      then match tail with
           | EmptyString => String c EmptyString
           | String d tail' =>
               if Ascii.eqb d "$"
               then String "$" (get_substitution matched before after tail')
               else if Ascii.eqb d "&"
               then (matched ++ get_substitution matched before after tail')%string
               else if Ascii.eqb d "`"
               then (before ++ get_substitution matched before after tail')%string
               else if Ascii.eqb d "'"
               then (after ++ get_substitution matched before after tail')%string
               else String c (get_substitution matched before after tail)
           end
      else String c (get_substitution matched before after tail)
  end.

(** [s.replace(pattern, replacement)] with a string pattern: only the
    first occurrence is replaced. *)
Definition replace (s pattern replacement : string) : string :=
  match Str.cut pattern s with
  | Some (before, after) =>
      (before ++ get_substitution pattern before after replacement ++ after)%string
  | None => s
  end.

End Js.

(** ** Workflow data *)

(** What a Python [raise] or a JavaScript [throw] carries. *)
Record exn := { kind : string; message : string }.

Inductive outcome (A : Type) : Type :=
| Returned (a : A)
| Raised (e : exn).
Arguments Returned {A} a.
Arguments Raised {A} e.

Module Workflow.

Record uploaded_file := {
  file_id : string;
  file_name : string;
  file_size : nat
}.

(** [node.data.config], a JSON object: the keys of the four configuration
    types of [types/workflow.ts]; a key that the object does not carry
    reads [None] ([undefined] in JavaScript, the default of [dict.get] in
    Python). [temperature] is a number, kept as the text that prints it. *)
Record config := {
  query : option string;
  embeddingModel : option string;
  apiKey : option string;
  uploadedFiles : option (list uploaded_file);
  model : option string;
  prompt : option string;
  temperature : option string;
  useWebSearch : option bool;
  webSearchTool : option string;
  webSearchApiKey : option string;
  displayMode : option string
}.

Definition empty_config : config :=
  {| query := None; embeddingModel := None; apiKey := None;
     uploadedFiles := None; model := None; prompt := None;
     temperature := None; useWebSearch := None; webSearchTool := None;
     webSearchApiKey := None; displayMode := None |}.

Record node := {
  id : string;
  type : string;
  data_config : config
}.

Record edge := {
  edge_id : string;
  source : string;
  target : string
}.

Record workflow := {
  nodes : list node;
  edges : list edge
}.

(** [getDefaultConfig] of [ComponentLibrary.tsx]. *)
Definition getDefaultConfig (t : string) : config :=
  if (t =? "userQuery")%string then
    {| query := Some ""; embeddingModel := None; apiKey := None;
       uploadedFiles := None; model := None; prompt := None;
       temperature := None; useWebSearch := None; webSearchTool := None;
       webSearchApiKey := None; displayMode := None |}
  else if (t =? "knowledgeBase")%string then
    {| query := None; embeddingModel := Some "text-embedding-3-large";
       apiKey := Some ""; uploadedFiles := Some [];
       model := None; prompt := None;
       temperature := None; useWebSearch := None; webSearchTool := None;
       webSearchApiKey := None; displayMode := None |}
  else if (t =? "llmEngine")%string then
    {| query := None; embeddingModel := None; apiKey := Some "";
       uploadedFiles := None; model := Some "gpt-4o-mini";
       prompt := Some "You are a helpful PDF assistant. Use web search if the PDF lacks context";
       temperature := Some "0.75"; useWebSearch := Some true;
       webSearchTool := Some "serpapi";
       webSearchApiKey := Some ""; displayMode := None |}
  else if (t =? "output")%string then
    {| query := None; embeddingModel := None; apiKey := None;
       uploadedFiles := None; model := None; prompt := None;
       temperature := None; useWebSearch := None; webSearchTool := None;
       webSearchApiKey := None; displayMode := Some "text" |}
  else empty_config.

(** [n.type === t] *)
Definition has_type (t : string) (n : node) : bool := (type n =? t)%string.

(** The graph has a node of type [t]; the graph has none. *)
Definition contains (t : string) (w : workflow) : Prop :=
  exists n, In n (nodes w) /\ type n = t.

Definition lacks (t : string) (w : workflow) : Prop :=
  forall n, In n (nodes w) -> type n <> t.

(** The graph misses one of the three node types that validation asks for. *)
Definition missing_required (w : workflow) : Prop :=
  lacks "userQuery" w \/ lacks "llmEngine" w \/ lacks "output" w.

End Workflow.

(** ** WorkflowEditor.tsx *)

Module WorkflowEditor.
Import Workflow.

Definition validateWorkflow (w : workflow) : bool :=
  let hasUserQuery := existsb (has_type "userQuery") (nodes w) in
  let hasLLM := existsb (has_type "llmEngine") (nodes w) in
  let hasOutput := existsb (has_type "output") (nodes w) in
  hasUserQuery && hasLLM && hasOutput && (0 <? List.length (edges w))%nat.

(** What [buildStack] does besides the state change. *)
Inductive effect :=
| Alert (text : string)
| SaveWorkflow (w : workflow).

(** [buildStack]: the effects, and the new value of [showChat]. *)
Definition buildStack (w : workflow) (showChat : bool) : list effect * bool :=
  if negb (validateWorkflow w)
  then ([Alert "Invalid workflow! Ensure you have: User Query → LLM Engine → Output"],
        showChat)
  else ([SaveWorkflow w], true).

End WorkflowEditor.

(** ** The validation rules of the architecture notes *)

Module Notes.
Import Workflow.

Record result := { valid : bool; error : option string }.

(** The errors a result reports. *)
Definition errors (r : result) : list string :=
  match error r with Some e => [e] | None => [] end.

Section Validate.

(** [validateNodeConfig] is called by the notes and defined nowhere. *)
Variable validateNodeConfig : node -> bool.

(** The [for (const node of nodes)] loop. *)
Fixpoint validate_nodes (ns : list node) : result :=
  match ns with
  | [] => {| valid := true; error := None |}
  | n :: rest =>
      if negb (validateNodeConfig n)
      then {| valid := false; error := Some ("Invalid config for " ++ id n)%string |}
      else validate_nodes rest
  end.

Definition validateWorkflow (w : workflow) : result :=
  let hasUserQuery := existsb (has_type "userQuery") (nodes w) in
  let hasLLM := existsb (has_type "llmEngine") (nodes w) in
  let hasOutput := existsb (has_type "output") (nodes w) in
  if negb hasUserQuery || negb hasLLM || negb hasOutput
  then {| valid := false; error := Some "Missing required components" |}
  else if (List.length (edges w) =? 0)%nat
  then {| valid := false; error := Some "No connections between components" |}
  else validate_nodes (nodes w).

End Validate.

Definition filled (field : option string) : bool :=
  match field with Some s => Js.truthy s | None => false end.

(** Modelled from the spec: [validateNodeConfig], which the notes call and
    no source file defines. An LLMEngine configuration must carry a
    non-empty [model] and [apiKey]; a KnowledgeBase configuration must
    carry a non-empty [embeddingModel]. *)
Definition validateNodeConfig_spec (n : node) : bool :=
  if has_type "llmEngine" n
  then filled (model (data_config n)) && filled (apiKey (data_config n))
  else if has_type "knowledgeBase" n
  then filled (embeddingModel (data_config n))
  else true.

End Notes.

(** ** ChatInterface.tsx *)

Module ChatInterface.
Import Workflow.

(** [value || fallback] on a string that may be [undefined]. *)
Definition or_else (value : option string) (fallback : string) : string :=
  match value with
  | Some s => if Js.truthy s then s else fallback
  | None => fallback
  end.

(** A value inside a template literal. *)
Definition shown (value : option string) : string :=
  match value with Some s => s | None => "undefined" end.

(** The local variables of [executeWorkflow] where it returns. *)
Record locals := {
  context : string;
  prompt : string;
  response : string
}.

Definition context_of (knowledgeBaseNode : option node) : string :=
  match knowledgeBaseNode with
  | Some kb =>
      match uploadedFiles (data_config kb) with
      | Some files =>
          if (0 <? List.length files)%nat
          then ("[Context from " ++ Str.decimal (List.length files) ++ " document(s)]")%string
          else ""
      | None => ""
      end
  | None => ""
  end.

Definition prompt_of (llmConfig : config) (context query : string) : string :=
  let prompt := or_else (Workflow.prompt llmConfig) "You are a helpful assistant." in
  let prompt := if Js.truthy context then Js.replace prompt "{context}" context else prompt in
  Js.replace prompt "{query}" query.

Definition response_of (llmConfig : config) (context query : string) : string :=
  ("This is a simulated response to: " ++ Str.dquote ++ query ++ Str.dquote
   ++ Str.nl ++ Str.nl
   ++ "To enable real LLM responses, you would need to:" ++ Str.nl
   ++ "1. Set up a backend API endpoint" ++ Str.nl
   ++ "2. Configure your OpenAI API key" ++ Str.nl
   ++ "3. Connect the workflow execution to the backend" ++ Str.nl ++ Str.nl
   ++ "Workflow configuration:" ++ Str.nl
   ++ "- Model: " ++ shown (model llmConfig) ++ Str.nl
   ++ "- Temperature: " ++ shown (temperature llmConfig) ++ Str.nl
   ++ "- Web Search: "
   ++ (match useWebSearch llmConfig with Some true => "Enabled" | _ => "Disabled" end)
   ++ Str.nl
   ++ (if Js.truthy context then "- Using context from knowledge base" else ""))%string.

Definition executeWorkflow_locals (w : workflow) (query : string) : outcome locals :=
  let userQueryNode := find (has_type "userQuery") (nodes w) in
  let knowledgeBaseNode := find (has_type "knowledgeBase") (nodes w) in
  let llmNode := find (has_type "llmEngine") (nodes w) in
  let outputNode := find (has_type "output") (nodes w) in
  match llmNode with
  | None => Raised {| kind := "Error"; message := "LLM Engine component is required" |}
  | Some llmNode =>
      let context := context_of knowledgeBaseNode in
      let llmConfig := data_config llmNode in
      Returned {| context := context;
                  prompt := prompt_of llmConfig context query;
                  response := response_of llmConfig context query |}
  end.

Definition executeWorkflow (w : workflow) (query : string) : outcome string :=
  match executeWorkflow_locals w query with
  | Returned l => Returned (response l)
  | Raised e => Raised e
  end.

(** A row for [chat_messages] before it is saved, and a saved row. *)
Record new_message := {
  stack_id : string;
  session_id : string;
  role : string;
  content : string;
  metadata_error : bool
}.

Record chat_message := {
  msg_id : string;
  created_at : string;
  row : new_message
}.

(** [supabase.from(table).insert(row).select().single()] *)
Inductive db_event := Insert (table : string) (r : new_message).

Record insert_result := {
  data : option chat_message;
  db_error : option string
}.

(** The datastore answers an insert knowing what was written before. *)
Definition datastore := list db_event -> string -> new_message -> insert_result.

Record state := {
  messages : list chat_message;
  input : string;
  loading : bool
}.

Definition push (saved : option chat_message) (ms : list chat_message) : list chat_message :=
  match saved with Some m => ms ++ [m] | None => ms end.

Definition error_notice : string :=
  "Sorry, there was an error processing your request. Please check your API keys and configuration.".

(** The [catch] block of [sendMessage], then [finally]. *)
Definition recover (db : datastore) (stackId sessionId : string)
    (ms : list chat_message) (log : list db_event) : state * list db_event :=
  let errorMessage :=
    {| stack_id := stackId; session_id := sessionId; role := "assistant";
       content := error_notice; metadata_error := true |} in
  let r := db log "chat_messages" errorMessage in
  ({| messages := push (data r) ms; input := ""; loading := false |},
   log ++ [Insert "chat_messages" errorMessage]).

Definition sendMessage (db : datastore) (w : workflow) (stackId sessionId : string)
    (st : state) (log : list db_event) : state * list db_event :=
  if negb (Js.truthy (Js.trim (input st))) || loading st then (st, log)
  else
    let userMessage :=
      {| stack_id := stackId; session_id := sessionId; role := "user";
         content := Js.trim (input st); metadata_error := false |} in
    let r1 := db log "chat_messages" userMessage in
    let log1 := log ++ [Insert "chat_messages" userMessage] in
    match db_error r1 with
    | Some _ => recover db stackId sessionId (messages st) log1
    | None =>
        let ms1 := push (data r1) (messages st) in
        match executeWorkflow w (Js.trim (input st)) with
        | Raised _ => recover db stackId sessionId ms1 log1
        | Returned response =>
            let assistantMessage :=
              {| stack_id := stackId; session_id := sessionId; role := "assistant";
                 content := response; metadata_error := false |} in
            let r2 := db log1 "chat_messages" assistantMessage in
            let log2 := log1 ++ [Insert "chat_messages" assistantMessage] in
            match db_error r2 with
            | Some _ => recover db stackId sessionId ms1 log2
            | None =>
                ({| messages := push (data r2) ms1; input := ""; loading := false |},
                 log2)
            end
        end
    end.

(** The rows of a log that went to the table [execution_logs], where the
    schema keeps execution traces. *)
Definition to_table (t : string) (ev : db_event) : bool :=
  match ev with Insert t' _ => (t' =? t)%string end.

(** A row written to [chat_messages]. *)
Definition chat_write (ev : db_event) : Prop :=
  match ev with Insert t _ => t = "chat_messages" end.

Definition traces_written (log : list db_event) : nat :=
  List.length (filter (to_table "execution_logs") log).

End ChatInterface.

(** ** The reference backend *)

Module Backend.
Import Workflow.

(** One chat message of a completion request. *)
Record chat_turn := { turn_role : string; turn_content : string }.

Record chat_request := {
  req_model : string;
  req_messages : list chat_turn;
  req_temperature : string
}.

(** The calls that leave the process. *)
Inductive event :=
| EmbeddingsCreate (embedding_model : string) (texts : list string)
| CollectionQuery (collection_name : string) (n_results : Z)
| SerpGet (q : string) (api_key : option string)
| ChatCompletionsCreate (request : chat_request).

(** The JSON that a search answers with, and the answer of a vector query:
    only the keys that the code reads. *)
Record organic_result := { snippet : option string }.
Record serp_results := { organic_results : option (list organic_result) }.
Record query_results := { documents : option (list (list string)) }.

Section Services.

(** An embedding: a list of floats, which the code only passes on. *)
Context {vector : Type}.

(** The external services. Each answers knowing the calls made before, and
    each may raise instead of answering. *)
Record providers := {
  embeddings_create : list event -> string -> list string -> outcome (list vector);
  collection_query : list event -> string -> vector -> Z -> outcome query_results;
  serp_get : list event -> string -> option string -> outcome serp_results;
  chat_completions_create : list event -> chat_request -> outcome string
}.

(** Computations that make such calls: the calls so far go in, the outcome
    and the calls so far come out. *)
Definition M (A : Type) : Type := list event -> outcome A * list event.

Definition ret {A} (a : A) : M A := fun log => (Returned a, log).

Definition raise {A} (e : exn) : M A := fun log => (Raised e, log).

Definition bind {A B} (c : M A) (k : A -> M B) : M B :=
  fun log =>
    match c log with
    | (Returned a, log') => k a log'
    | (Raised e, log') => (Raised e, log')
    end.

(** A call: it is recorded, then answered. *)
Definition call {A} (ev : event) (answer : list event -> outcome A) : M A :=
  fun log => (answer log, log ++ [ev]).

Notation "x <- c ;; k" := (bind c (fun x => k))
  (at level 61, c at next level, right associativity).

Variable P : providers.

(** *** EmbeddingService *)

Definition generate_embeddings (texts : list string) : M (list vector) :=
  call (EmbeddingsCreate "text-embedding-3-large" texts)
       (fun log => embeddings_create P log "text-embedding-3-large" texts).

(** *** VectorStore *)

Definition vector_store_query (collection_name : string) (query_embedding : vector)
    (n_results : Z) : M query_results :=
  call (CollectionQuery collection_name n_results)
       (fun log => collection_query P log collection_name query_embedding n_results).

(** *** LLMService *)

(** The body of [for result in results.get('organic_results', [])[:3]]. *)
Definition snippets_of (results : serp_results) : list string :=
  let organic := match organic_results results with Some l => l | None => [] end in
  map (fun result => match snippet result with Some s => s | None => "" end)
      (firstn 3 organic).

Definition perform_web_search (query : string) (api_key : option string) : M string :=
  results <- call (SerpGet query api_key) (fun log => serp_get P log query api_key) ;;
  ret (Py.join Str.nl (snippets_of results)).

(** The arguments of [chat.completions.create]. *)
Definition completion_request (config : Workflow.config) (prompt query : string)
    : chat_request :=
  {| req_model := match model config with Some m => m | None => "gpt-4o-mini" end;
     req_messages := [ {| turn_role := "system"; turn_content := prompt |};
                       {| turn_role := "user"; turn_content := query |} ];
     req_temperature :=
       match temperature config with Some t => t | None => "0.7" end |}.

Definition generate_response (query context : string) (config : Workflow.config) : M string :=
  let prompt :=
    match Workflow.prompt config with
    | Some p => p
    | None => "You are a helpful assistant."
    end in
  let prompt := Py.replace prompt "{context}" context in
  let prompt := Py.replace prompt "{query}" query in
  prompt <-
    (match useWebSearch config with
     | Some true =>
         search_results <- perform_web_search query (webSearchApiKey config) ;;
         ret (prompt ++ Str.nl ++ Str.nl ++ "Web Search Results:" ++ Str.nl
              ++ search_results)%string
     | _ => ret prompt
     end) ;;
  let request := completion_request config prompt query in
  call (ChatCompletionsCreate request)
       (fun log => chat_completions_create P log request).

(** *** WorkflowEngine *)

Record metadata := { context_used : bool }.
Record execution := { response : string; meta : metadata }.

Definition _find_node_by_type (nodes : list node) (node_type : string) : option node :=
  find (has_type node_type) nodes.

Definition _retrieve_context (stack_id query : string) : M string :=
  embeddings <- generate_embeddings [query] ;;
  query_embedding <-
    (match embeddings with
     | e :: _ => ret e
     | [] => raise {| kind := "IndexError"; message := "list index out of range" |}
     end) ;;
  results <- vector_store_query ("stack_" ++ stack_id)%string query_embedding 3 ;;
  match documents results with
  | Some (first :: _) => ret (Py.join Str.nl first)
  | _ => ret ""
  end.

Definition execute (workflow_data : workflow) (query stack_id : string) : M execution :=
  let nodes := Workflow.nodes workflow_data in
  let edges := Workflow.edges workflow_data in
  let kb_node := _find_node_by_type nodes "knowledgeBase" in
  let llm_node := _find_node_by_type nodes "llmEngine" in
  context <-
    (match kb_node with
     | Some _ => _retrieve_context stack_id query
     | None => ret ""
     end) ;;
  response <-
    (match llm_node with
     | Some llm => generate_response query context (data_config llm)
     | None => raise {| kind := "ValueError"; message := "LLM node not found" |}
     end) ;;
  ret {| response := response;
         meta := {| context_used := Py.nonempty context |} |}.

End Services.

Arguments providers : clear implicits.

(** The calls of a run that reach a given service. *)
Definition is_embedding (ev : event) : bool :=
  match ev with EmbeddingsCreate _ _ => true | _ => false end.
Definition is_vector_store (ev : event) : bool :=
  match ev with CollectionQuery _ _ => true | _ => false end.
Definition is_web_search (ev : event) : bool :=
  match ev with SerpGet _ _ => true | _ => false end.
Definition is_language_model (ev : event) : bool :=
  match ev with ChatCompletionsCreate _ => true | _ => false end.

(** The two calls of [_retrieve_context]. *)
Definition embed_query (q : string) : event :=
  EmbeddingsCreate "text-embedding-3-large" [q].

Definition query_store (stack_id : string) : event :=
  CollectionQuery ("stack_" ++ stack_id)%string 3.

(** A run made no call to any service. *)
Definition no_provider_call {A} (run : outcome A * list event) : Prop :=
  snd run = [].

End Backend.

(** ** Sample graphs and services *)

Module Samples.
Import Workflow.

Definition llm_config (m k : string) : config :=
  {| query := None; embeddingModel := None; apiKey := Some k;
     uploadedFiles := None; model := Some m;
     prompt := Some "Answer {query} using {context}";
     temperature := Some "0.7"; useWebSearch := Some false;
     webSearchTool := None; webSearchApiKey := None; displayMode := None |}.

Definition user_query_node : node :=
  {| id := "userQuery-1"; type := "userQuery";
     data_config := getDefaultConfig "userQuery" |}.

Definition output_node : node :=
  {| id := "output-1"; type := "output"; data_config := getDefaultConfig "output" |}.

Definition llm_node : node :=
  {| id := "llmEngine-1"; type := "llmEngine"; data_config := llm_config "m1" "k" |}.

(** The llmEngine node as the component library creates it: the API key
    is the empty string. *)
Definition fresh_llm_node : node :=
  {| id := "llmEngine-1"; type := "llmEngine";
     data_config := getDefaultConfig "llmEngine" |}.

Definition kb_node : node :=
  {| id := "knowledgeBase-1"; type := "knowledgeBase";
     data_config := getDefaultConfig "knowledgeBase" |}.

Definition two_edges : list edge :=
  [ {| edge_id := "e1"; source := "userQuery-1"; target := "llmEngine-1" |};
    {| edge_id := "e2"; source := "llmEngine-1"; target := "output-1" |} ].

(** UserQuery -> LLMEngine(model m1, key k) -> Output *)
Definition chain : workflow :=
  {| nodes := [user_query_node; llm_node; output_node]; edges := two_edges |}.

(** The same chain, straight from the component library. *)
Definition fresh_chain : workflow :=
  {| nodes := [user_query_node; fresh_llm_node; output_node]; edges := two_edges |}.

(** The chain with a knowledge base. *)
Definition kb_chain : workflow :=
  {| nodes := [user_query_node; kb_node; llm_node; output_node]; edges := two_edges |}.

(** An llmEngine node and nothing else. *)
Definition llm_only : workflow := {| nodes := [llm_node]; edges := [] |}.

(** A knowledge base and nothing else. *)
Definition kb_only : workflow := {| nodes := [kb_node]; edges := [] |}.

Definition unavailable : exn :=
  {| kind := "ConnectionError"; message := "service unavailable" |}.

(** Services that all answer. *)
Definition up : Backend.providers unit :=
  {| Backend.embeddings_create := fun _ _ texts => Returned (map (fun _ => tt) texts);
     Backend.collection_query := fun _ _ _ _ =>
       Returned {| Backend.documents := Some [["the answer is 4"]] |};
     Backend.serp_get := fun _ _ _ =>
       Returned {| Backend.organic_results :=
                     Some [ {| Backend.snippet := Some "one" |};
                            {| Backend.snippet := None |};
                            {| Backend.snippet := Some "three" |};
                            {| Backend.snippet := Some "four" |} ] |};
     Backend.chat_completions_create := fun _ _ => Returned "4" |}.

(** The embedding service is down. *)
Definition embedding_down : Backend.providers unit :=
  {| Backend.embeddings_create := fun _ _ _ => Raised unavailable;
     Backend.collection_query := Backend.collection_query up;
     Backend.serp_get := Backend.serp_get up;
     Backend.chat_completions_create := Backend.chat_completions_create up |}.

(** The vector store is down. *)
Definition store_down : Backend.providers unit :=
  {| Backend.embeddings_create := Backend.embeddings_create up;
     Backend.collection_query := fun _ _ _ _ => Raised unavailable;
     Backend.serp_get := Backend.serp_get up;
     Backend.chat_completions_create := Backend.chat_completions_create up |}.

(** The search service is down. *)
Definition search_down : Backend.providers unit :=
  {| Backend.embeddings_create := Backend.embeddings_create up;
     Backend.collection_query := Backend.collection_query up;
     Backend.serp_get := fun _ _ _ => Raised unavailable;
     Backend.chat_completions_create := Backend.chat_completions_create up |}.

(** The search answers without organic results. *)
Definition search_empty : Backend.providers unit :=
  {| Backend.embeddings_create := Backend.embeddings_create up;
     Backend.collection_query := Backend.collection_query up;
     Backend.serp_get := fun _ _ _ => Returned {| Backend.organic_results := None |};
     Backend.chat_completions_create := Backend.chat_completions_create up |}.

(** An llmEngine configuration with web search on. *)
Definition searching_config : config :=
  {| query := None; embeddingModel := None; apiKey := Some "k";
     uploadedFiles := None; model := Some "m1";
     prompt := Some "Answer {query}";
     temperature := Some "0.7"; useWebSearch := Some true;
     webSearchTool := Some "serpapi"; webSearchApiKey := Some "s";
     displayMode := None |}.

(** A datastore that saves every row. *)
Definition saving : ChatInterface.datastore :=
  fun log _ r =>
    {| ChatInterface.data :=
         Some {| ChatInterface.msg_id := Str.decimal (List.length log);
                 ChatInterface.created_at := "";
                 ChatInterface.row := r |};
       ChatInterface.db_error := None |}.

Definition typing (text : string) : ChatInterface.state :=
  {| ChatInterface.messages := []; ChatInterface.input := text;
     ChatInterface.loading := false |}.

End Samples.

(** ** Editing a workflow *)

(** [updateNodeConfig] of [WorkflowEditor.tsx], [addComponent] of
    [ComponentLibrary.tsx] and [handleFileUpload] of [ConfigPanel.tsx], on
    the fields of a node that the executors and the validation read. *)
Module Editing.
Import Workflow.

(** [{ ...node, data: { ...node.data, config } }] *)
Definition with_config (n : node) (c : config) : node :=
  {| id := id n; type := type n; data_config := c |}.

(** The function that [updateNodeConfig] hands to [setNodes]. *)
Definition updateNodeConfig (nodeId : string) (c : config) (nds : list node)
    : list node :=
  map (fun n => if (id n =? nodeId)%string then with_config n c else n) nds.

(** [nodes.filter((n) => n.type === type).length] *)
Definition existingCount (t : string) (nds : list node) : nat :=
  List.length (filter (has_type t) nds).

(** Where [addComponent] puts the new node on the canvas. *)
Definition position (t : string) (nds : list node) : Z * Z :=
  ((250 + Z.of_nat (existingCount t nds) * 50)%Z,
   (100 + Z.of_nat (existingCount t nds) * 50)%Z).

(** [addComponent(type)]; [uuid] is what [uuidv4()] answers. *)
Definition addComponent (t uuid : string) (nds : list node) : list node :=
  nds ++ [ {| id := (t ++ "-" ++ uuid)%string; type := t;
              data_config := getDefaultConfig t |} ].

(** [handleFileUpload]: the configuration that [handleChange] builds and
    passes to [onUpdate]; [files] are the chosen files with the ids drawn
    for them. *)
Definition handleFileUpload (files : list uploaded_file) (c : config) : config :=
  {| query := query c; embeddingModel := embeddingModel c; apiKey := apiKey c;
     uploadedFiles :=
       Some ((match uploadedFiles c with Some old => old | None => [] end) ++ files);
     model := model c; prompt := prompt c; temperature := temperature c;
     useWebSearch := useWebSearch c; webSearchTool := webSearchTool c;
     webSearchApiKey := webSearchApiKey c; displayMode := displayMode c |}.

End Editing.

(** ** Text shapes *)

Module Shape.

(** The text holds separators only. *)
Fixpoint all_space (s : string) : bool :=
  match s with
  | EmptyString => true
  | String c rest => Py.isspace c && all_space rest
  end.

(** The text holds only what [trim] removes. *)
Fixpoint blank (s : string) : bool :=
  match s with
  | EmptyString => true
  | String c rest => Js.isspace c && blank rest
  end.

(** [old] occurs in [s]. *)
Definition occurs (old s : string) : Prop :=
  exists before after, s = (before ++ old ++ after)%string.

(** The longest word of a list is at most [bound] characters long. *)
Definition words_within (bound : nat) (ws : list string) : Prop :=
  Forall (fun w => String.length w <= bound) ws.

End Shape.

(** ** Document upload *)

(** [DocumentProcessor.extract_text], [VectorStore.add_documents] and the
    endpoint [upload_document] of the reference backend. *)
Module Ingest.

Record chunk_metadata := { chunk_index : nat }.

(** The arguments of [collection.add]. *)
Record add_request (vector : Type) := {
  add_documents_ : list string;
  add_embeddings : list vector;
  add_metadatas : list chunk_metadata;
  add_ids : list string
}.
Arguments add_documents_ {vector} _.
Arguments add_embeddings {vector} _.
Arguments add_metadatas {vector} _.
Arguments add_ids {vector} _.

Section Upload.

Context {vector : Type}.

(** What leaves the process during an upload. *)
Inductive call :=
| WriteFile (path : string)
| FitzOpen (path : string)
| EmbeddingsCreate (embedding_model : string) (texts : list string)
| GetCollection (name : string)
| CollectionAdd (name : string) (request : add_request vector).

(** The file system, the PDF reader and the two services; each answers
    knowing the calls made before and may raise. [fitz_open] answers with
    the text of every page. *)
Record services := {
  write_file : list call -> string -> outcome unit;
  fitz_open : list call -> string -> outcome (list string);
  embeddings_create : list call -> string -> list string -> outcome (list vector);
  get_collection : list call -> string -> outcome unit;
  collection_add : list call -> string -> add_request vector -> outcome unit
}.

Definition I (A : Type) : Type := list call -> outcome A * list call.

Definition ret {A} (a : A) : I A := fun log => (Returned a, log).

Definition bind {A B} (c : I A) (k : A -> I B) : I B :=
  fun log =>
    match c log with
    | (Returned a, log') => k a log'
    | (Raised e, log') => (Raised e, log')
    end.

Definition perform {A} (ev : call) (answer : list call -> outcome A) : I A :=
  fun log => (answer log, log ++ [ev]).

Notation "x <- c ;; k" := (bind c (fun x => k))
  (at level 61, c at next level, right associativity).

Variable srv : services.

(** [text += page.get_text()] over the pages. *)
Definition extract_text (file_path : string) : I string :=
  pages <- perform (FitzOpen file_path) (fun log => fitz_open srv log file_path) ;;
  ret (fold_left (fun text page => (text ++ page)%string) pages "").

Definition generate_embeddings (texts : list string) : I (list vector) :=
  perform (EmbeddingsCreate "text-embedding-3-large" texts)
          (fun log => embeddings_create srv log "text-embedding-3-large" texts).

(** [[f"doc_{i}" for i in range(len(documents))]] *)
Definition doc_ids (n : nat) : list string :=
  map (fun i => ("doc_" ++ Str.decimal i)%string) (seq 0 n).

Definition add_documents (collection_name : string) (documents : list string)
    (embeddings : list vector) (metadatas : list chunk_metadata) : I unit :=
  _ <- perform (GetCollection collection_name)
               (fun log => get_collection srv log collection_name) ;;
  let request :=
    {| add_documents_ := documents; add_embeddings := embeddings;
       add_metadatas := metadatas; add_ids := doc_ids (List.length documents) |} in
  perform (CollectionAdd collection_name request)
          (fun log => collection_add srv log collection_name request).

Record upload_result := { success : bool; chunks : nat }.

Definition upload_document (filename stack_id : string) : I upload_result :=
  let file_path := ("uploads/" ++ filename)%string in
  _ <- perform (WriteFile file_path) (fun log => write_file srv log file_path) ;;
  text <- extract_text file_path ;;
  let chunks := DocumentProcessor.chunk_text text 1000 in
  embeddings <- generate_embeddings chunks ;;
  _ <- add_documents ("stack_" ++ stack_id)%string chunks embeddings
         (map (fun i => {| chunk_index := i |}) (seq 0 (List.length chunks))) ;;
  ret {| success := true; chunks := List.length chunks |}.

End Upload.

Arguments call : clear implicits.
Arguments services : clear implicits.

(** The text that [extract_text] builds from the pages. *)
Definition text_of (pages : list string) : string :=
  fold_left (fun text page => (text ++ page)%string) pages "".

(** The insertion that [upload_document] asks for, for an extracted text
    and the vectors that the embedding service gave. *)
Definition the_request {vector} (text : string) (vectors : list vector)
    : add_request vector :=
  let chunks := DocumentProcessor.chunk_text text 1000 in
  {| add_documents_ := chunks; add_embeddings := vectors;
     add_metadatas := map (fun i => {| chunk_index := i |}) (seq 0 (List.length chunks));
     add_ids := doc_ids (List.length chunks) |}.

Definition is_add {vector} (ev : call vector) : bool :=
  match ev with CollectionAdd _ _ | GetCollection _ => true | _ => false end.

(** Services that answer: one page of text, one vector per chunk. *)
Definition answering (page : string) : services unit :=
  {| write_file := fun _ _ => Returned tt;
     fitz_open := fun _ _ => Returned [page];
     embeddings_create := fun _ _ texts => Returned (map (fun _ => tt) texts);
     get_collection := fun _ _ => Returned tt;
     collection_add := fun _ _ _ => Returned tt |}.

(** The same, with the embedding service down. *)
Definition embedding_down (page : string) : services unit :=
  {| write_file := fun _ _ => Returned tt;
     fitz_open := fun _ _ => Returned [page];
     embeddings_create := fun _ _ _ =>
       Raised {| kind := "ConnectionError"; message := "service unavailable" |};
     get_collection := fun _ _ => Returned tt;
     collection_add := fun _ _ _ => Returned tt |}.

End Ingest.

(** ** More sample services *)

Module MoreSamples.

(** The embedding service answers with no vector. *)
Definition no_vector : Backend.providers unit :=
  {| Backend.embeddings_create := fun _ _ _ => Returned [];
     Backend.collection_query := Backend.collection_query Samples.up;
     Backend.serp_get := Backend.serp_get Samples.up;
     Backend.chat_completions_create := Backend.chat_completions_create Samples.up |}.

(** An insertion as [upload_document] builds it for the stack [stack_id]:
    it goes to the stack's collection, with one id and one index per
    document, the ids being doc_0, doc_1, ... and the indices 0, 1, ... *)
Definition well_formed_add {vector : Type} (stack_id : string)
    (ev : Ingest.call vector) : Prop :=
  match ev with
  | Ingest.CollectionAdd name request =>
      name = ("stack_" ++ stack_id)%string
      /\ Ingest.add_ids request
         = Ingest.doc_ids (List.length (Ingest.add_documents_ request))
      /\ Ingest.add_metadatas request
         = map (fun i => {| Ingest.chunk_index := i |})
               (seq 0 (List.length (Ingest.add_documents_ request)))
      /\ exists text, Ingest.add_documents_ request = DocumentProcessor.chunk_text text 1000
  | _ => True
  end.

End MoreSamples.

(* ================================================================= *)
(** * Properties *)

(** ** Strings *)

Module StringFacts.

Lemma append_nil_r (s : string) : (s ++ "")%string = s.
Proof. induction s as [|c s IH]; simpl; [reflexivity | now rewrite IH]. Qed.

Lemma append_assoc (a b c : string) : ((a ++ b) ++ c = a ++ (b ++ c))%string.
Proof. induction a as [|x a IH]; simpl; [reflexivity | now rewrite IH]. Qed.

Lemma length_append (a b : string) :
  String.length (a ++ b)%string = String.length a + String.length b.
Proof. induction a as [|x a IH]; simpl; [reflexivity | now rewrite IH]. Qed.

Lemma nonempty_snoc (s : string) (c : ascii) :
  Py.nonempty (s ++ String c "")%string = true.
Proof. destruct s; reflexivity. Qed.

Lemma join_cons (sep x : string) (l : list string) :
  l <> [] -> Py.join sep (x :: l) = (x ++ sep ++ Py.join sep l)%string.
Proof. destruct l; [congruence | reflexivity]. Qed.

(** Joining a list that was built in two non-empty parts. *)
Lemma join_app (sep : string) (l1 l2 : list string) :
  l1 <> [] -> l2 <> [] ->
  Py.join sep (l1 ++ l2) = (Py.join sep l1 ++ sep ++ Py.join sep l2)%string.
Proof.
  intros H1 H2. induction l1 as [|x l1 IH]; [congruence|].
  destruct l1 as [|y l1].
  - simpl app. now rewrite join_cons.
  - rewrite <- app_comm_cons, !join_cons by (try discriminate; destruct l2; discriminate).
    rewrite IH by discriminate. now rewrite !append_assoc.
Qed.

(** Joining the joined groups is joining all the words, as long as no
    group is empty. *)
Lemma join_groups (sep : string) (gs : list (list string)) :
  Forall (fun g => g <> []) gs ->
  Py.join sep (map (Py.join sep) gs) = Py.join sep (List.concat gs).
Proof.
  induction 1 as [|g gs Hg Hgs IH]; [reflexivity|].
  destruct gs as [|g' gs].
  - simpl. now rewrite app_nil_r.
  - cbn [map List.concat] in *. rewrite join_cons by discriminate.
    rewrite IH, (join_app sep g (g' ++ List.concat gs)); [reflexivity | assumption |].
    inversion Hgs as [|? ? Hg' _]; subst. destruct g'; [congruence | discriminate].
Qed.

End StringFacts.

(** ** Replacement *)

Module ReplaceFacts.
Import StringFacts.

Lemma strip_prefix_spec (old s after : string) :
  Str.strip_prefix old s = Some after -> s = (old ++ after)%string.
Proof.
  revert s. induction old as [|a old IH]; intros s H; simpl in H.
  - now inversion H.
  - destruct s as [|b s]; [discriminate|].
    destruct (Ascii.eqb_spec a b) as [->|]; [|discriminate].
    simpl. f_equal. now apply IH.
Qed.

(** [cut] splits the string around an occurrence of [old]. *)
Lemma cut_spec (old s before after : string) :
  Str.cut old s = Some (before, after) -> s = (before ++ old ++ after)%string.
Proof.
  revert before. induction s as [|c s IH]; intros before H.
  - simpl in H. destruct (Str.strip_prefix old "") eqn:Hp; [|discriminate].
    inversion H; subst. now apply (strip_prefix_spec old).
  - simpl in H. destruct (Str.strip_prefix old (String c s)) eqn:Hp.
    + inversion H; subst. now apply (strip_prefix_spec old).
    + destruct (Str.cut old s) as [[b a]|]; [|discriminate].
      inversion H; subst. simpl. f_equal. now apply IH.
Qed.

Lemma cut_shorter (old s before after : string) :
  Py.nonempty old = true ->
  Str.cut old s = Some (before, after) -> String.length after < String.length s.
Proof.
  intros Hold H. apply cut_spec in H. subst s.
  rewrite !length_append. destruct old; [discriminate | simpl; lia].
Qed.

(** Fuel beyond the length of the string changes nothing: [Py.replace]
    replaces every occurrence. *)
Lemma replace_fuel_enough (old new : string) :
  Py.nonempty old = true ->
  forall fuel s, String.length s <= fuel ->
    Py.replace_fuel fuel old new s = Py.replace s old new.
Proof.
  intros Hold. unfold Py.replace.
  assert (H : forall fuel s k, String.length s <= fuel ->
            Py.replace_fuel (fuel + k) old new s = Py.replace_fuel fuel old new s).
  { induction fuel as [|fuel IH]; intros s k Hlen.
    - destruct s; [|simpl in Hlen; lia].
      destruct k; simpl; [reflexivity|].
      destruct old; [discriminate | reflexivity].
    - simpl. destruct (Str.cut old s) as [[b a]|] eqn:Hcut; [|reflexivity].
      rewrite IH; [reflexivity|].
      pose proof (cut_shorter _ _ _ _ Hold Hcut). lia. }
  intros fuel s Hlen.
  replace fuel with (String.length s + (fuel - String.length s)) by lia.
  now apply H.
Qed.

(** One step of [str.replace]: the first occurrence is replaced and the
    rest of the string is treated in the same way. *)
Lemma replace_step (old new s before after : string) :
  Py.nonempty old = true ->
  Str.cut old s = Some (before, after) ->
  Py.replace s old new = (before ++ new ++ Py.replace after old new)%string.
Proof.
  intros Hold Hcut. unfold Py.replace at 1.
  pose proof (cut_shorter _ _ _ _ Hold Hcut) as Hlt.
  destruct (String.length s) as [|n] eqn:Hn; [lia|].
  simpl. rewrite Hcut. rewrite (replace_fuel_enough old new Hold n after) by lia.
  reflexivity.
Qed.

Lemma replace_absent (old new s : string) :
  Str.cut old s = None -> Py.replace s old new = s.
Proof.
  intros H. unfold Py.replace. destruct (String.length s); simpl; [reflexivity|].
  now rewrite H.
Qed.

End ReplaceFacts.

(** ** [split] and whitespace normalisation *)

Module SplitFacts.
Import StringFacts DocumentProcessor.

Lemma split_from_nonempty (s cur : string) :
  Py.nonempty cur = true -> Py.split_from cur s <> [].
Proof.
  revert cur. induction s as [|c s IH]; intros cur Hcur; simpl.
  - now rewrite Hcur.
  - destruct (Py.isspace c).
    + now rewrite Hcur.
    + apply IH, nonempty_snoc.
Qed.

Lemma split_from_squeeze (s : string) :
  (forall cur, Py.nonempty cur = true ->
     Py.join " " (Py.split_from cur s) = (cur ++ squeeze InWord s)%string)
  /\ Py.join " " (Py.split_from "" s) = squeeze AtStart s
  /\ after_gap (Py.split_from "" s) = squeeze InGap s.
Proof.
  induction s as [|c s (IHword & IHstart & IHgap)]; simpl.
  - repeat split; try reflexivity.
    intros cur Hcur. rewrite Hcur. simpl. now rewrite append_nil_r.
  - destruct (Py.isspace c) eqn:Hc.
    + repeat split; try assumption.
      intros cur Hcur. rewrite Hcur, <- IHgap.
      destruct (Py.split_from "" s) as [|w ws] eqn:Hs.
      * simpl. now rewrite append_nil_r.
      * now rewrite join_cons by discriminate.
    + assert (Hone : Py.nonempty (String c "") = true) by reflexivity.
      repeat split.
      * intros cur Hcur. rewrite IHword by apply nonempty_snoc.
        now rewrite append_assoc.
      * now rewrite (IHword _ Hone).
      * pose proof (split_from_nonempty s _ Hone) as Hne.
        unfold after_gap.
        destruct (Py.split_from (String c "") s) as [|w ws] eqn:Hs; [congruence|].
        rewrite <- Hs, (IHword _ Hone). reflexivity.
Qed.

(** [' '.join(text.split())] is the whitespace-normalised text. *)
Lemma join_split (text : string) :
  Py.join " " (Py.split text) = normalize_whitespace text.
Proof. apply (split_from_squeeze text). Qed.

Lemma split_from_words (s cur : string) :
  no_space cur = true -> Forall is_word (Py.split_from cur s).
Proof.
  revert cur. induction s as [|c s IH]; intros cur Hcur; simpl.
  - destruct (Py.nonempty cur) eqn:Hne; [|constructor].
    constructor; [now split | constructor].
  - destruct (Py.isspace c) eqn:Hc.
    + destruct (Py.nonempty cur) eqn:Hne; [constructor; [now split|] |]; now apply IH.
    + apply IH. clear IH. induction cur as [|x cur IHc]; simpl in *.
      * now rewrite Hc.
      * apply andb_true_iff in Hcur as [Hx Hcur]. rewrite Hx. now apply IHc.
Qed.

(** The words of [text.split()] are non-empty and free of separators. *)
Lemma split_words (text : string) : Forall is_word (Py.split text).
Proof. now apply split_from_words. Qed.

End SplitFacts.

(** ** The chunking loop *)

Module ChunkFacts.
Import StringFacts DocumentProcessor.

Lemma acc_len_cons (w : string) (a : list string) :
  acc_len (w :: a) = (Z.of_nat (String.length w) + 1 + acc_len a)%Z.
Proof. reflexivity. Qed.

Lemma acc_len_app (a b : list string) :
  acc_len (a ++ b) = (acc_len a + acc_len b)%Z.
Proof. induction a as [|w a IH]; simpl; [reflexivity | rewrite IH; lia]. Qed.

Lemma acc_len_nonneg (a : list string) : (0 <= acc_len a)%Z.
Proof. induction a as [|w a IH]; simpl; lia. Qed.

Lemma acc_len_pos (a : list string) : a <> [] -> (0 < acc_len a)%Z.
Proof.
  destruct a as [|w a]; [congruence|]. intros _. simpl.
  pose proof (acc_len_nonneg a). lia.
Qed.

(** The joined chunk is one character shorter than the running length. *)
Lemma length_join (ws : list string) :
  ws <> [] ->
  (Z.of_nat (String.length (Py.join " " ws)) + 1 = acc_len ws)%Z.
Proof.
  induction ws as [|w ws IH]; [congruence|]. intros _.
  destruct ws as [|w' ws].
  - simpl. lia.
  - rewrite join_cons by discriminate.
    specialize (IH ltac:(discriminate)).
    rewrite !length_append, (acc_len_cons w). change (String.length " ") with 1%nat. lia.
Qed.

Lemma step_same n st gst w :
  same_state st gst -> same_state (step n st w) (g_step n gst w).
Proof.
  intros (Hc & Hcur & Hsz). unfold step, g_step. rewrite Hcur, Hsz.
  destruct (_ >=? n)%Z; repeat split; simpl; try reflexivity; try assumption.
  now rewrite Hc, map_app.
Qed.

Lemma fold_same n ws : forall st gst,
  same_state st gst ->
  same_state (fold_left (step n) ws st) (fold_left (g_step n) ws gst).
Proof.
  induction ws as [|w ws IH]; intros st gst H; simpl; [assumption|].
  apply IH, step_same, H.
Qed.

Lemma chunk_text_groups (text : string) (n : Z) :
  chunk_text text n = map (Py.join " ") (chunk_groups n (Py.split text)).
Proof.
  unfold chunk_text, chunk_groups, finish, g_finish.
  destruct (fold_same n (Py.split text) initial g_initial) as (Hc & Hcur & _).
  { repeat split. }
  rewrite Hc, Hcur.
  destruct (g_current _); [reflexivity|].
  now rewrite map_app.
Qed.

Lemma invariant_initial n : invariant n [] g_initial.
Proof. split; simpl; auto. Qed.

Lemma prefix_of_snoc (cur p q : list string) (w : string) :
  cur ++ [w] = p ++ q -> q <> [] -> exists q', cur = p ++ q'.
Proof.
  intros H Hq. destruct (exists_last Hq) as (q' & x & ->).
  rewrite app_assoc in H. apply app_inj_tail in H as [H _]. now exists q'.
Qed.

Lemma invariant_step n seen st w :
  invariant n seen st -> invariant n (seen ++ [w]) (g_step n st w).
Proof.
  intros [Hw Hs Hg Hc]. unfold g_step. rewrite Hs.
  assert (Hlen : (acc_len (g_current st) + (Z.of_nat (String.length w) + 1)
                  = acc_len (g_current st ++ [w]))%Z).
  { rewrite acc_len_app. simpl. lia. }
  rewrite Hlen.
  destruct (Z.geb_spec (acc_len (g_current st ++ [w])) n) as [Hge|Hlt].
  - split; simpl; [ | reflexivity | | now left].
    + now rewrite concat_app, <- Hw, app_nil_r; simpl; rewrite app_nil_r, app_assoc.
    + apply Forall_app. split; [assumption|]. constructor; [|constructor].
      repeat split.
      * now destruct (g_current st).
      * lia.
      * intros p q Hpq Hp Hq.
        destruct (prefix_of_snoc _ _ _ _ Hpq Hq) as (q' & Hcur).
        destruct Hc as [Hc|Hc]; [rewrite Hc in Hcur; now destruct p|].
        rewrite Hcur, acc_len_app in Hc. pose proof (acc_len_nonneg q'). lia.
  - split; simpl; [ | reflexivity | assumption | right; lia].
    now rewrite <- Hw, app_assoc.
Qed.

Lemma invariant_fold n ws : forall seen st,
  invariant n seen st ->
  invariant n (seen ++ ws) (fold_left (g_step n) ws st).
Proof.
  induction ws as [|w ws IH]; intros seen st H; simpl.
  - now rewrite app_nil_r.
  - replace (seen ++ w :: ws) with ((seen ++ [w]) ++ ws) by now rewrite <- app_assoc.
    apply IH, invariant_step, H.
Qed.

Lemma minimal_below n g : (acc_len g < n)%Z -> minimal n g.
Proof.
  intros H p q -> _ _. rewrite acc_len_app in H.
  pose proof (acc_len_nonneg q). lia.
Qed.

(** What the finished loop returns. *)
Lemma chunk_groups_spec (n : Z) (ws : list string) :
  let gs := chunk_groups n ws in
  List.concat gs = ws
  /\ Forall (fun g => g <> []) gs
  /\ Forall (minimal n) gs
  /\ (forall front g, gs = front ++ [g] -> Forall (emitted n) front).
Proof.
  unfold chunk_groups, g_finish.
  destruct (invariant_fold n ws [] g_initial (invariant_initial n)) as [Hw Hs Hg Hc].
  simpl in Hw.
  assert (Hne : Forall (fun g => g <> []) (groups (fold_left (g_step n) ws g_initial))).
  { eapply Forall_impl; [|exact Hg]. now intros g (H & _). }
  assert (Hmin : Forall (minimal n) (groups (fold_left (g_step n) ws g_initial))).
  { eapply Forall_impl; [|exact Hg]. now intros g (_ & _ & H). }
  destruct (g_current (fold_left (g_step n) ws g_initial)) as [|w cur] eqn:Hcur.
  - rewrite app_nil_r in Hw. repeat split; try assumption.
    intros front g Hfront. rewrite Hfront in Hg. now apply Forall_app in Hg.
  - repeat split.
    + now rewrite concat_app; simpl; rewrite app_nil_r.
    + apply Forall_app; split; [assumption | repeat constructor; discriminate].
    + apply Forall_app; split; [assumption | repeat constructor].
      apply minimal_below. destruct Hc as [Hc|Hc]; [discriminate | assumption].
    + intros front g Hfront. apply app_inj_tail in Hfront as [<- _]. assumption.
Qed.

End ChunkFacts.

Example split_ex : Py.split "  the quick
 brown  fox " = ["the"; "quick"; "brown"; "fox"].
Proof. reflexivity. Qed.

Example chunk_ex1 :
  DocumentProcessor.chunk_text "aa bb cc dd e" 6 = ["aa bb"; "cc dd"; "e"].
Proof. reflexivity. Qed.

Example replace_ex : Py.replace "a{q}b{q}" "{q}" "xy" = "axybxy".
Proof. reflexivity. Qed.

(** ** Chunking *)

Module Chunker.
Import DocumentProcessor.

(** C3. [chunk_text] is deterministic: the same text and the same chunk
    size give the same chunks in the same order. Joining the chunks with
    single spaces gives the whitespace-normalised text. The empty text
    gives no chunk. *)
Theorem chunk_text_lossless (text : string) (chunk_size : Z) :
  (forall text' chunk_size',
      text' = text -> chunk_size' = chunk_size ->
      chunk_text text' chunk_size' = chunk_text text chunk_size)
  /\ Py.join " " (chunk_text text chunk_size) = normalize_whitespace text
  /\ chunk_text "" chunk_size = [].
Proof.
  split; [now intros ? ? -> ->|]. split; [|reflexivity].
  rewrite ChunkFacts.chunk_text_groups.
  destruct (ChunkFacts.chunk_groups_spec chunk_size (Py.split text)) as (Hw & Hne & _).
  rewrite StringFacts.join_groups by assumption.
  rewrite Hw. apply SplitFacts.join_split.
Qed.

(** C4. The chunks are the text's words, in order, cut greedily: words are
    whitespace-delimited; a chunk is closed by the first word that brings
    the running length (characters of each word plus one) to [chunk_size],
    so no shorter run of its words had reached it and every chunk before
    the last has running length at least [chunk_size]; the words left at
    the end form a last chunk, so no word is lost. *)
Theorem chunk_text_greedy (text : string) (chunk_size : Z) :
  let words := Py.split text in
  let gs := chunk_groups chunk_size words in
  Forall is_word words
  /\ chunk_text text chunk_size = map (Py.join " ") gs
  /\ List.concat gs = words
  /\ Forall (fun g => g <> []) gs
  /\ Forall (minimal chunk_size) gs
  /\ (forall front g, gs = front ++ [g] ->
        Forall (fun g' => (chunk_size <= acc_len g')%Z) front)
  /\ (forall front c, chunk_text text chunk_size = front ++ [c] ->
        Forall (fun c' => (chunk_size <= Z.of_nat (String.length c') + 1)%Z) front).
Proof.
  intros words gs.
  destruct (ChunkFacts.chunk_groups_spec chunk_size words) as (Hw & Hne & Hmin & Hfront).
  fold gs in Hw, Hne, Hmin, Hfront.
  assert (Hreach : forall front g, gs = front ++ [g] ->
            Forall (fun g' => (chunk_size <= acc_len g')%Z) front).
  { intros front g Hgs. eapply Forall_impl; [|exact (Hfront front g Hgs)].
    now intros g' (_ & H & _). }
  repeat split; try assumption.
  - apply SplitFacts.split_words.
  - apply ChunkFacts.chunk_text_groups.
  - intros front c Hc. rewrite ChunkFacts.chunk_text_groups in Hc. fold words gs in Hc.
    destruct (exists_last (l := gs)) as (gfront & g & Hgs).
    { intros ->. now destruct front. }
    rewrite Hgs, map_app in Hc. apply app_inj_tail in Hc as [<- _].
    specialize (Hreach gfront g Hgs). rewrite Hgs in Hne.
    apply Forall_app in Hne as [Hne _].
    apply Forall_map. rewrite Forall_forall in *. intros g' Hin.
    rewrite ChunkFacts.length_join by now apply Hne. now apply Hreach.
Qed.

End Chunker.

(** ** Looking nodes up by type *)

Module NodeFacts.
Import Workflow.

Lemma lacks_existsb (t : string) (w : workflow) :
  lacks t w <-> existsb (has_type t) (nodes w) = false.
Proof.
  unfold lacks, has_type. split.
  - intros H. destruct (existsb _ _) eqn:E; [|reflexivity].
    apply existsb_exists in E as (n & Hin & Hn).
    apply String.eqb_eq in Hn. now apply H in Hin.
  - intros E n Hin Hn.
    assert (existsb (fun n => (type n =? t)%string) (nodes w) = true); [|congruence].
    apply existsb_exists. exists n. split; [assumption | now apply String.eqb_eq].
Qed.

Lemma lacks_find (t : string) (w : workflow) :
  lacks t w <-> find (has_type t) (nodes w) = None.
Proof.
  unfold lacks, has_type. split.
  - intros H. destruct (find _ _) eqn:E; [|reflexivity].
    apply find_some in E as (Hin & Hn). apply String.eqb_eq in Hn. now apply H in Hin.
  - intros E n Hin Hn. apply (find_none _ _ E) in Hin.
    apply String.eqb_neq in Hin. contradiction.
Qed.

Lemma contains_find (t : string) (w : workflow) :
  contains t w <-> exists n, find (has_type t) (nodes w) = Some n.
Proof.
  split.
  - intros (n & Hin & Hn). destruct (find _ _) eqn:E; [eauto|].
    apply lacks_find in E. now apply E in Hin.
  - intros (n & E). apply find_some in E as (Hin & Hn).
    exists n. split; [assumption | now apply String.eqb_eq].
Qed.

Lemma contains_or_lacks (t : string) (w : workflow) : contains t w \/ lacks t w.
Proof.
  destruct (find (has_type t) (nodes w)) eqn:E.
  - left. apply contains_find. eauto.
  - right. now apply lacks_find.
Qed.

End NodeFacts.

(** ** The executor of the chat window *)

Module ChatFacts.
Import Workflow ChatInterface.

Lemma response_of_nonempty (llmConfig : config) (context query : string) :
  response_of llmConfig context query <> "".
Proof. discriminate. Qed.

(** C10. [executeWorkflow] throws 'LLM Engine component is required'
    exactly when the graph has no llmEngine node. With an llmEngine node
    it returns a non-empty response, whatever the other nodes are: the
    userQuery and output nodes that validation asks for are looked up and
    never used. *)
Theorem executeWorkflow_requires_llm_only (w : workflow) (query : string) :
  (executeWorkflow w query
     = Raised {| kind := "Error"; message := "LLM Engine component is required" |}
   <-> lacks "llmEngine" w)
  /\ (contains "llmEngine" w ->
        exists r, executeWorkflow w query = Returned r /\ r <> "").
Proof.
  unfold executeWorkflow, executeWorkflow_locals.
  rewrite NodeFacts.lacks_find, NodeFacts.contains_find.
  destruct (find (has_type "llmEngine") (nodes w)) as [llm|]; split.
  - split; discriminate.
  - intros _. eexists. split; [reflexivity | apply response_of_nonempty].
  - split; reflexivity.
  - intros (n & Hn). discriminate.
Qed.

Example executeWorkflow_llm_only :
  exists r, executeWorkflow Samples.llm_only "hi" = Returned r /\ r <> ""
            /\ WorkflowEditor.validateWorkflow Samples.llm_only = false.
Proof. eexists. repeat split. discriminate. Qed.

End ChatFacts.

(** ** Runs of the backend services *)

Module EngineFacts.
Import Workflow Backend.

Section Runs.

Context {vector : Type} (P : providers vector).

Lemma perform_web_search_run (q : string) (key : option string) (log : list event) :
  perform_web_search P q key log =
  (match serp_get P log q key with
   | Returned results => Returned (Py.join Str.nl (snippets_of results))
   | Raised e => Raised e
   end, log ++ [SerpGet q key]).
Proof.
  unfold perform_web_search, bind, call, ret.
  now destruct (serp_get P log q key).
Qed.

(** Without web search: one call, to the language model. *)
Lemma generate_response_plain (q ctx : string) (cfg : config) (log : list event) :
  useWebSearch cfg <> Some true ->
  let template :=
    match prompt cfg with Some p => p | None => "You are a helpful assistant." end in
  let request :=
    completion_request cfg
      (Py.replace (Py.replace template "{context}" ctx) "{query}" q) q in
  generate_response P q ctx cfg log =
  (chat_completions_create P log request, log ++ [ChatCompletionsCreate request]).
Proof.
  intros Hweb. unfold generate_response, bind, call, ret.
  destruct (useWebSearch cfg) as [[|]|]; [congruence | reflexivity | reflexivity].
Qed.

(** With web search, answered: the search, then the language model. *)
Lemma generate_response_searched (q ctx : string) (cfg : config) (log : list event)
    (results : serp_results) :
  useWebSearch cfg = Some true ->
  serp_get P log q (webSearchApiKey cfg) = Returned results ->
  let template :=
    match prompt cfg with Some p => p | None => "You are a helpful assistant." end in
  let request :=
    completion_request cfg
      (Py.replace (Py.replace template "{context}" ctx) "{query}" q
       ++ Str.nl ++ Str.nl ++ "Web Search Results:" ++ Str.nl
       ++ Py.join Str.nl (snippets_of results))%string q in
  let log1 := log ++ [SerpGet q (webSearchApiKey cfg)] in
  generate_response P q ctx cfg log =
  (chat_completions_create P log1 request, log1 ++ [ChatCompletionsCreate request]).
Proof.
  intros Hweb Hserp. unfold generate_response. rewrite Hweb.
  unfold bind at 1. unfold bind at 1. rewrite perform_web_search_run, Hserp.
  reflexivity.
Qed.

(** With web search, failed: the error leaves [generate_response] and the
    language model is not called. *)
Lemma generate_response_search_failed (q ctx : string) (cfg : config)
    (log : list event) (e : exn) :
  useWebSearch cfg = Some true ->
  serp_get P log q (webSearchApiKey cfg) = Raised e ->
  generate_response P q ctx cfg log =
  (Raised e, log ++ [SerpGet q (webSearchApiKey cfg)]).
Proof.
  intros Hweb Hserp. unfold generate_response. rewrite Hweb.
  unfold bind at 1. unfold bind at 1. rewrite perform_web_search_run, Hserp.
  reflexivity.
Qed.

(** [generate_response] reaches the search service and the language model
    only. *)
Lemma generate_response_calls (q ctx : string) (cfg : config) (log : list event) :
  exists calls,
    snd (generate_response P q ctx cfg log) = log ++ calls
    /\ Forall (fun ev => is_embedding ev = false /\ is_vector_store ev = false) calls.
Proof.
  destruct (useWebSearch cfg) as [[|]|] eqn:Hweb.
  - destruct (serp_get P log q (webSearchApiKey cfg)) as [results|e] eqn:Hserp.
    + rewrite (generate_response_searched _ _ _ _ results Hweb Hserp). simpl.
      eexists. rewrite <- app_assoc. split; [reflexivity|].
      repeat constructor.
    + rewrite (generate_response_search_failed _ _ _ _ e Hweb Hserp). simpl.
      eexists. split; [reflexivity|]. repeat constructor.
  - rewrite generate_response_plain by congruence. simpl.
    eexists. split; [reflexivity|]. repeat constructor.
  - rewrite generate_response_plain by congruence. simpl.
    eexists. split; [reflexivity|]. repeat constructor.
Qed.

Lemma retrieve_embedding_failed (sid q : string) (log : list event) (e : exn) :
  embeddings_create P log "text-embedding-3-large" [q] = Raised e ->
  _retrieve_context P sid q log = (Raised e, log ++ [embed_query q]).
Proof.
  intros H. unfold _retrieve_context, generate_embeddings, bind, call. now rewrite H.
Qed.

Lemma retrieve_store_failed (sid q : string) (log : list event) (e : exn)
    (v : vector) (vs : list vector) :
  embeddings_create P log "text-embedding-3-large" [q] = Returned (v :: vs) ->
  collection_query P (log ++ [embed_query q]) ("stack_" ++ sid)%string v 3 = Raised e ->
  _retrieve_context P sid q log = (Raised e, (log ++ [embed_query q]) ++ [query_store sid]).
Proof.
  intros H1 H2.
  unfold _retrieve_context, generate_embeddings, vector_store_query, bind, call, ret.
  rewrite H1. unfold embed_query in H2. now rewrite H2.
Qed.

Lemma retrieve_answered (sid q : string) (log : list event)
    (v : vector) (vs : list vector) (r : query_results) :
  embeddings_create P log "text-embedding-3-large" [q] = Returned (v :: vs) ->
  collection_query P (log ++ [embed_query q]) ("stack_" ++ sid)%string v 3 = Returned r ->
  _retrieve_context P sid q log =
  (Returned match documents r with
            | Some (first :: _) => Py.join Str.nl first
            | _ => ""
            end,
   (log ++ [embed_query q]) ++ [query_store sid]).
Proof.
  intros H1 H2.
  unfold _retrieve_context, generate_embeddings, vector_store_query, bind, call, ret.
  rewrite H1. unfold embed_query in H2. rewrite H2.
  now destruct (documents r) as [[|first rest]|].
Qed.

(** [execute] when the graph has no knowledgeBase node. *)
Lemma execute_no_kb (w : workflow) (q sid : string) (log : list event) :
  lacks "knowledgeBase" w ->
  execute P w q sid log =
  match find (has_type "llmEngine") (nodes w) with
  | Some llm =>
      (match fst (generate_response P q "" (data_config llm) log) with
       | Returned answer =>
           Returned {| response := answer; meta := {| context_used := false |} |}
       | Raised e => Raised e
       end,
       snd (generate_response P q "" (data_config llm) log))
  | None => (Raised {| kind := "ValueError"; message := "LLM node not found" |}, log)
  end.
Proof.
  intros Hkb. apply NodeFacts.lacks_find in Hkb.
  unfold execute, _find_node_by_type. rewrite Hkb.
  destruct (find (has_type "llmEngine") (nodes w)) as [llm|]; [|reflexivity].
  unfold bind, ret.
  now destruct (generate_response P q "" (data_config llm) log) as [[answer|e] log'].
Qed.

(** [execute] when context retrieval raises. *)
Lemma execute_retrieval_raised (w : workflow) (q sid : string) (log log' : list event)
    (e : exn) :
  contains "knowledgeBase" w ->
  _retrieve_context P sid q log = (Raised e, log') ->
  execute P w q sid log = (Raised e, log').
Proof.
  intros Hkb Hr. apply NodeFacts.contains_find in Hkb as (kb & Hkb).
  unfold execute, _find_node_by_type. rewrite Hkb.
  unfold bind at 1. unfold bind at 1. now rewrite Hr.
Qed.

(** [execute] when context retrieval answers. *)
Lemma execute_retrieved (w : workflow) (q sid ctx : string) (log log' : list event)
    (llm : node) :
  contains "knowledgeBase" w ->
  find (has_type "llmEngine") (nodes w) = Some llm ->
  _retrieve_context P sid q log = (Returned ctx, log') ->
  execute P w q sid log =
  (match fst (generate_response P q ctx (data_config llm) log') with
   | Returned answer =>
       Returned {| response := answer; meta := {| context_used := Py.nonempty ctx |} |}
   | Raised e => Raised e
   end,
   snd (generate_response P q ctx (data_config llm) log')).
Proof.
  intros Hkb Hllm Hr. apply NodeFacts.contains_find in Hkb as (kb & Hkb).
  unfold execute, _find_node_by_type. rewrite Hkb, Hllm.
  unfold bind, ret. rewrite Hr.
  now destruct (generate_response P q ctx (data_config llm) log') as [[answer|e] log''].
Qed.

End Runs.

End EngineFacts.

(** ** Validation *)

Module Validation.
Import Workflow.

Lemma missing_required_existsb (w : workflow) :
  missing_required w ->
  negb (existsb (has_type "userQuery") (nodes w))
  || negb (existsb (has_type "llmEngine") (nodes w))
  || negb (existsb (has_type "output") (nodes w)) = true.
Proof.
  intros [H|[H|H]]; apply NodeFacts.lacks_existsb in H; rewrite H; simpl;
    rewrite ?orb_true_r; reflexivity.
Qed.

(** C1, as the code has it. For a graph that misses a userQuery, an
    llmEngine or an output node: the editor's validation answers false; the
    validation of the notes answers invalid with the error 'Missing
    required components'; [buildStack] shows the alert, saves nothing and
    leaves the chat closed or open as it was, so the editor starts no
    execution. The backend's [execute] does not validate: it makes no call
    to a service when the graph has neither a knowledgeBase nor an
    llmEngine node, and then raises 'LLM node not found'. *)
Theorem missing_node_is_rejected (w : workflow) :
  missing_required w ->
  WorkflowEditor.validateWorkflow w = false
  /\ (forall validateNodeConfig,
        Notes.validateWorkflow validateNodeConfig w
        = {| Notes.valid := false;
             Notes.error := Some "Missing required components" |}
        /\ Notes.errors (Notes.validateWorkflow validateNodeConfig w) <> [])
  /\ (forall showChat,
        WorkflowEditor.buildStack w showChat
        = ([WorkflowEditor.Alert
              "Invalid workflow! Ensure you have: User Query → LLM Engine → Output"],
           showChat))
  /\ (forall (vector : Type) (P : Backend.providers vector) q stack_id,
        lacks "knowledgeBase" w -> lacks "llmEngine" w ->
        Backend.execute P w q stack_id []
        = (Raised {| kind := "ValueError"; message := "LLM node not found" |}, [])
        /\ Backend.no_provider_call (Backend.execute P w q stack_id [])).
Proof.
  intros Hmiss. pose proof (missing_required_existsb w Hmiss) as Hb.
  assert (Hv : WorkflowEditor.validateWorkflow w = false).
  { unfold WorkflowEditor.validateWorkflow.
    destruct (existsb (has_type "userQuery") (nodes w));
    destruct (existsb (has_type "llmEngine") (nodes w));
    destruct (existsb (has_type "output") (nodes w)); simpl in *;
    try reflexivity; discriminate. }
  split; [exact Hv|]. split; [|split].
  - intros validateNodeConfig. unfold Notes.errors, Notes.validateWorkflow.
    rewrite Hb. split; [reflexivity | discriminate].
  - intros showChat. unfold WorkflowEditor.buildStack. now rewrite Hv.
  - intros vector P q stack_id Hkb Hllm.
    assert (Hrun : Backend.execute P w q stack_id []
                   = (Raised {| kind := "ValueError"; message := "LLM node not found" |}, [])).
    { rewrite EngineFacts.execute_no_kb by assumption.
      apply NodeFacts.lacks_find in Hllm. now rewrite Hllm. }
    split; [exact Hrun|]. unfold Backend.no_provider_call. now rewrite Hrun.
Qed.

Lemma llm_only_lacks (t : string) :
  t <> "llmEngine" -> lacks t Samples.llm_only.
Proof. intros Ht n [<-|[]]. simpl. congruence. Qed.

Lemma empty_lacks (t : string) : lacks t {| nodes := []; edges := [] |}.
Proof. intros n []. Qed.

Lemma missing_node_is_rejected_witness :
  missing_required {| nodes := []; edges := [] |}
  /\ WorkflowEditor.validateWorkflow {| nodes := []; edges := [] |} = false
  /\ Backend.no_provider_call
       (Backend.execute Samples.up {| nodes := []; edges := [] |} "2+2?" "s1" []).
Proof.
  assert (Hm : missing_required {| nodes := []; edges := [] |}).
  { left. apply empty_lacks. }
  split; [exact Hm|].
  destruct (missing_node_is_rejected _ Hm) as (Hv & _ & _ & Hx).
  split; [exact Hv|].
  apply (Hx unit Samples.up "2+2?" "s1"); apply empty_lacks.
Defined.

(** The claim C1 fails on the backend: the graph has an llmEngine node and
    neither a userQuery nor an output node, validation rejects it, and
    [execute] calls the language model all the same. *)
Lemma execute_invalid_graph_calls_model :
  missing_required Samples.llm_only
  /\ WorkflowEditor.validateWorkflow Samples.llm_only = false
  /\ Backend.execute Samples.up Samples.llm_only "2+2?" "s1" []
     = (Returned {| Backend.response := "4";
                    Backend.meta := {| Backend.context_used := false |} |},
        [Backend.ChatCompletionsCreate
           {| Backend.req_model := "m1";
              Backend.req_messages :=
                [ {| Backend.turn_role := "system";
                     Backend.turn_content := "Answer 2+2? using " |};
                  {| Backend.turn_role := "user"; Backend.turn_content := "2+2?" |} ];
              Backend.req_temperature := "0.7" |}])
  /\ ~ Backend.no_provider_call
         (Backend.execute Samples.up Samples.llm_only "2+2?" "s1" []).
Proof.
  split; [left; apply llm_only_lacks; discriminate|].
  split; [reflexivity|]. split; [reflexivity|]. discriminate.
Qed.

(** C2, at the chain that the component library builds (the API key of its
    llmEngine node is the empty string): the editor's validation accepts
    it and [buildStack] opens the chat, while the validation of the notes,
    with the completeness rule of the specification, rejects it. *)
Theorem validateWorkflow_ignores_apiKey :
  apiKey (data_config Samples.fresh_llm_node) = Some ""
  /\ WorkflowEditor.validateWorkflow Samples.fresh_chain = true
  /\ WorkflowEditor.buildStack Samples.fresh_chain false
     = ([WorkflowEditor.SaveWorkflow Samples.fresh_chain], true)
  /\ Notes.validateWorkflow Notes.validateNodeConfig_spec Samples.fresh_chain
     = {| Notes.valid := false;
          Notes.error := Some "Invalid config for llmEngine-1" |}.
Proof. repeat split. Qed.

End Validation.

(** ** Prompt construction *)

Module Prompt.
Import Workflow Backend.



Example replace_every_occurrence :
  Py.replace "{query} and {query}" "{query}" "x" = "x and x"
  /\ Js.replace "{query} and {query}" "{query}" "x" = "x and {query}".
Proof. split; reflexivity. Qed.

Example replace_dollar_patterns :
  Js.replace "ask: {query}" "{query}" "$& costs $$5, $1" = "ask: {query} costs $5, $1".
Proof. reflexivity. Qed.

End Prompt.

(** ** Execution in the backend *)

Module Engine.
Import Workflow Backend.

(** C6. For a graph without a knowledgeBase node, [execute] calls neither
    the embedding service nor the vector store, whatever the services do;
    what it returns carries [context_used = false], and it does return, with
    that flag and the model's answer, when the graph has an llmEngine node
    and generation answers. In the chat window the context of such a graph
    is the empty string. *)
Theorem execute_without_knowledge_base {vector : Type} (P : providers vector)
    (w : workflow) (q stack_id : string) (log : list event) :
  lacks "knowledgeBase" w ->
  (exists calls,
     snd (execute P w q stack_id log) = log ++ calls
     /\ Forall (fun ev => is_embedding ev = false /\ is_vector_store ev = false) calls)
  /\ (forall r, fst (execute P w q stack_id log) = Returned r ->
        context_used (meta r) = false)
  /\ (forall llm answer,
        find (has_type "llmEngine") (nodes w) = Some llm ->
        fst (generate_response P q "" (data_config llm) log) = Returned answer ->
        fst (execute P w q stack_id log)
        = Returned {| response := answer; meta := {| context_used := false |} |})
  /\ (forall l, ChatInterface.executeWorkflow_locals w q = Returned l ->
        ChatInterface.context l = "").
Proof.
  intros Hkb. rewrite (EngineFacts.execute_no_kb P w q stack_id log Hkb).
  split; [|split; [|split]].
  - destruct (find (has_type "llmEngine") (nodes w)) as [llm|]; simpl.
    + apply EngineFacts.generate_response_calls.
    + exists []. split; [now rewrite app_nil_r | constructor].
  - intros r. destruct (find (has_type "llmEngine") (nodes w)) as [llm|]; simpl.
    + destruct (fst (generate_response P q "" (data_config llm) log)); [|discriminate].
      now intros [= <-].
    + discriminate.
  - intros llm answer -> Hanswer. simpl. now rewrite Hanswer.
  - intros l. unfold ChatInterface.executeWorkflow_locals.
    apply NodeFacts.lacks_find in Hkb. rewrite Hkb.
    destruct (find (has_type "llmEngine") (nodes w)); [|discriminate].
    now intros [= <-].
Qed.

Lemma chain_lacks_kb : lacks "knowledgeBase" Samples.chain.
Proof. apply NodeFacts.lacks_find. reflexivity. Qed.

Lemma execute_without_knowledge_base_witness :
  lacks "knowledgeBase" Samples.chain
  /\ fst (execute Samples.up Samples.chain "2+2?" "s1" [])
     = Returned {| response := "4"; meta := {| context_used := false |} |}.
Proof.
  split; [exact chain_lacks_kb|].
  destruct (execute_without_knowledge_base Samples.up Samples.chain "2+2?" "s1" []
              chain_lacks_kb) as (_ & _ & H & _).
  apply (H Samples.llm_node "4"); reflexivity.
Defined.

(** C7, as the code has it. With a knowledgeBase node in the graph, an
    error of the embedding call or of the vector store query leaves
    [execute] as it is: nothing is returned, and neither the search service
    nor the language model is called. No setting makes retrieval optional
    or mandatory. Only a query that is answered without documents gives
    the empty context: generation then runs with it and what is returned
    carries [context_used = false]. *)
Theorem retrieval_failure_is_fatal {vector : Type} (P : providers vector)
    (w : workflow) (q stack_id : string) (log : list event) :
  contains "knowledgeBase" w ->
  (forall e,
     (embeddings_create P log "text-embedding-3-large" [q] = Raised e
      \/ exists v vs,
           embeddings_create P log "text-embedding-3-large" [q] = Returned (v :: vs)
           /\ collection_query P (log ++ [embed_query q])
                ("stack_" ++ stack_id)%string v 3 = Raised e) ->
     exists calls,
       execute P w q stack_id log = (Raised e, log ++ calls)
       /\ Forall (fun ev => is_web_search ev = false /\ is_language_model ev = false)
            calls)
  /\ (forall v vs r llm,
        embeddings_create P log "text-embedding-3-large" [q] = Returned (v :: vs) ->
        collection_query P (log ++ [embed_query q])
          ("stack_" ++ stack_id)%string v 3 = Returned r ->
        documents r = None \/ documents r = Some [] ->
        find (has_type "llmEngine") (nodes w) = Some llm ->
        let log' := (log ++ [embed_query q]) ++ [query_store stack_id] in
        execute P w q stack_id log
        = (match fst (generate_response P q "" (data_config llm) log') with
           | Returned answer =>
               Returned {| response := answer; meta := {| context_used := false |} |}
           | Raised e => Raised e
           end,
           snd (generate_response P q "" (data_config llm) log'))).
Proof.
  intros Hkb. split.
  - intros e [Hemb | (v & vs & Hemb & Hq)].
    + exists [embed_query q]. split; [|repeat constructor].
      apply EngineFacts.execute_retrieval_raised; [assumption|].
      now apply EngineFacts.retrieve_embedding_failed.
    + exists [embed_query q; query_store stack_id]. split; [|repeat constructor].
      apply EngineFacts.execute_retrieval_raised; [assumption|].
      rewrite (EngineFacts.retrieve_store_failed P stack_id q log e v vs Hemb Hq).
      now rewrite <- app_assoc.
  - intros v vs r llm Hemb Hq Hdocs Hllm log'.
    pose proof (EngineFacts.retrieve_answered P stack_id q log v vs r Hemb Hq) as Hr.
    assert (Hctx : match documents r with
                   | Some (first :: _) => Py.join Str.nl first
                   | _ => ""
                   end = "") by (destruct Hdocs as [-> | ->]; reflexivity).
    rewrite Hctx in Hr.
    apply (EngineFacts.execute_retrieved P w q stack_id "" log log' llm Hkb Hllm Hr).
Qed.

Lemma kb_chain_contains_kb : contains "knowledgeBase" Samples.kb_chain.
Proof. exists Samples.kb_node. split; [right; left; reflexivity | reflexivity]. Qed.

Lemma retrieval_failure_is_fatal_witness :
  contains "knowledgeBase" Samples.kb_chain
  /\ exists calls,
       execute Samples.store_down Samples.kb_chain "what is the answer?" "s1" []
       = (Raised Samples.unavailable, [] ++ calls)
       /\ Forall (fun ev => is_web_search ev = false /\ is_language_model ev = false)
            calls.
Proof.
  split; [exact kb_chain_contains_kb|].
  apply (retrieval_failure_is_fatal Samples.store_down Samples.kb_chain
           "what is the answer?" "s1" [] kb_chain_contains_kb).
  right. exists tt, []. split; reflexivity.
Defined.

(** The claim C7 fails: the embedding service is down, the graph has a
    knowledgeBase node, and [execute] raises instead of answering with an
    empty context. *)
Lemma embedding_failure_is_not_recovered :
  execute Samples.embedding_down Samples.kb_chain "what is the answer?" "s1" []
  = (Raised Samples.unavailable, [embed_query "what is the answer?"])
  /\ ~ (exists r,
          fst (execute Samples.embedding_down Samples.kb_chain
                 "what is the answer?" "s1" []) = Returned r
          /\ context_used (meta r) = false).
Proof.
  split; [reflexivity|]. intros (r & Hr & _). discriminate.
Qed.

End Engine.

(** ** Web search *)

Module WebSearch.
Import Workflow Backend.

Lemma snippets_of_length (results : serp_results) :
  List.length (snippets_of results) <= 3.
Proof.
  unfold snippets_of. rewrite length_map, length_firstn. apply Nat.le_min_l.
Qed.

(** C8, as the code has it. A search that is answered gives the snippets
    of the first three organic results at most, in order and joined with
    newlines, a result without snippet counting as the empty string; a
    search answered without organic results gives the empty string, and
    generation goes on to the language model. A search that fails raises:
    [perform_web_search] returns nothing, and [generate_response] stops
    before the language model is called. *)
Theorem perform_web_search_spec {vector : Type} (P : providers vector)
    (q : string) (key : option string) (log : list event) :
  (forall results,
     serp_get P log q key = Returned results ->
     let organic := match organic_results results with Some l => l | None => [] end in
     let snippets :=
       map (fun r => match snippet r with Some s => s | None => "" end)
           (firstn 3 organic) in
     perform_web_search P q key log
     = (Returned (Py.join Str.nl snippets), log ++ [SerpGet q key])
     /\ List.length snippets <= 3
     /\ (organic = [] -> Py.join Str.nl snippets = "")
     /\ (organic = [] ->
         forall ctx cfg,
           useWebSearch cfg = Some true -> webSearchApiKey cfg = key ->
           exists request,
             snd (generate_response P q ctx cfg log)
             = (log ++ [SerpGet q key]) ++ [ChatCompletionsCreate request]))
  /\ (forall e,
        serp_get P log q key = Raised e ->
        perform_web_search P q key log = (Raised e, log ++ [SerpGet q key])
        /\ (forall ctx cfg,
              useWebSearch cfg = Some true -> webSearchApiKey cfg = key ->
              generate_response P q ctx cfg log = (Raised e, log ++ [SerpGet q key]))).
Proof.
  split.
  - intros results Hserp organic snippets.
    split; [|split; [|split]].
    + now rewrite EngineFacts.perform_web_search_run, Hserp.
    + apply (snippets_of_length results).
    + intros Hempty. subst snippets. now rewrite Hempty.
    + intros _ ctx cfg Hweb Hkey. subst key. eexists.
      now rewrite (EngineFacts.generate_response_searched P q ctx cfg log results Hweb Hserp).
  - intros e Hserp. split.
    + now rewrite EngineFacts.perform_web_search_run, Hserp.
    + intros ctx cfg Hweb Hkey. subst key.
      now apply EngineFacts.generate_response_search_failed.
Qed.

(** The claim C8 fails: the search service is down, the search gives no
    empty string, and generation stops without a call to the language
    model. *)
Lemma failed_search_aborts_generation :
  perform_web_search Samples.search_down "2+2?" (Some "s") []
  = (Raised Samples.unavailable, [SerpGet "2+2?" (Some "s")])
  /\ fst (perform_web_search Samples.search_down "2+2?" (Some "s") []) <> Returned ""
  /\ generate_response Samples.search_down "2+2?" "" Samples.searching_config []
     = (Raised Samples.unavailable, [SerpGet "2+2?" (Some "s")]).
Proof. split; [reflexivity|]. split; [discriminate | reflexivity]. Qed.

Example search_three_snippets :
  perform_web_search Samples.up "2+2?" (Some "s") []
  = (Returned ("one" ++ Str.nl ++ Str.nl ++ "three")%string, [SerpGet "2+2?" (Some "s")]).
Proof. reflexivity. Qed.

Example empty_search_goes_on :
  generate_response Samples.search_empty "2+2?" "" Samples.searching_config []
  = (Returned "4",
     [ SerpGet "2+2?" (Some "s");
       ChatCompletionsCreate
         (completion_request Samples.searching_config
            ("Answer 2+2?" ++ Str.nl ++ Str.nl ++ "Web Search Results:" ++ Str.nl)%string
            "2+2?") ]).
Proof. reflexivity. Qed.

End WebSearch.

(** ** What an execution leaves behind *)

Module Trace.
Import Workflow ChatInterface.

Lemma recover_writes (db : datastore) (stackId sessionId : string)
    (ms : list chat_message) (log : list db_event) :
  exists last,
    snd (recover db stackId sessionId ms log) = log ++ [Insert "chat_messages" last]
    /\ role last = "assistant"
    /\ content last = error_notice /\ metadata_error last = true.
Proof. eexists. repeat split. Qed.

(** C9, as the code has it. No execution trace is produced, by any
    outcome: [sendMessage] writes to [chat_messages] only, never to
    [execution_logs]. When a message is sent it writes the user's message
    first and an assistant message last, three rows at most; when
    [executeWorkflow] throws, that last row is the error notice. *)
Theorem sendMessage_writes_chat_only (db : datastore) (w : workflow)
    (stackId sessionId : string) (st : state) (log : list db_event) :
  exists writes,
    snd (sendMessage db w stackId sessionId st log) = log ++ writes
    /\ Forall chat_write writes
    /\ traces_written writes = 0
    /\ (Js.truthy (Js.trim (input st)) = true -> loading st = false ->
        exists rest last,
          writes
          = Insert "chat_messages"
              {| stack_id := stackId; session_id := sessionId; role := "user";
                 content := Js.trim (input st); metadata_error := false |}
            :: rest ++ [Insert "chat_messages" last]
          /\ List.length rest <= 1
          /\ role last = "assistant"
          /\ (forall e, executeWorkflow w (Js.trim (input st)) = Raised e ->
                rest = [] /\ content last = error_notice /\ metadata_error last = true)).
Proof.
  unfold sendMessage.
  destruct (Js.truthy (Js.trim (input st))) eqn:Hin; simpl;
    [destruct (loading st) eqn:Hload; simpl|].
  - exists []. rewrite app_nil_r. repeat split; try constructor. discriminate.
  - set (userMessage := {| stack_id := stackId; session_id := sessionId; role := "user";
                           content := Js.trim (input st); metadata_error := false |}).
    destruct (db_error (db log "chat_messages" userMessage)).
    + eexists. unfold recover; cbn [snd]. rewrite <- app_assoc. split; [reflexivity|].
      split; [repeat constructor|]. split; [reflexivity|].
      intros _ _. exists [], {| stack_id := stackId; session_id := sessionId;
                               role := "assistant"; content := error_notice;
                               metadata_error := true |}.
      repeat split. simpl. lia.
    + destruct (executeWorkflow w (Js.trim (input st))) as [response|e] eqn:Hexec.
      * set (assistantMessage :=
               {| stack_id := stackId; session_id := sessionId; role := "assistant";
                  content := response; metadata_error := false |}).
        destruct (db_error (db (log ++ [Insert "chat_messages" userMessage])
                              "chat_messages" assistantMessage)).
        -- eexists. unfold recover; cbn [snd]. rewrite <- !app_assoc. split; [reflexivity|].
           split; [repeat constructor|]. split; [reflexivity|].
           intros _ _. exists [Insert "chat_messages" assistantMessage],
             {| stack_id := stackId; session_id := sessionId;
                role := "assistant"; content := error_notice;
                metadata_error := true |}.
           repeat split; try (simpl; lia); discriminate.
        -- eexists. cbn [snd]. rewrite <- !app_assoc. split; [reflexivity|].
           split; [repeat constructor|]. split; [reflexivity|].
           intros _ _. exists [], assistantMessage.
           repeat split; try (simpl; lia); discriminate.
      * eexists. unfold recover; cbn [snd]. rewrite <- app_assoc. split; [reflexivity|].
        split; [repeat constructor|]. split; [reflexivity|].
        intros _ _. exists [], {| stack_id := stackId; session_id := sessionId;
                                 role := "assistant"; content := error_notice;
                                 metadata_error := true |}.
        repeat split. simpl. lia.
  - exists []. rewrite app_nil_r. repeat split; try constructor. discriminate.
Qed.

(** The claim C9 fails: a message is sent over a valid chain and answered,
    the datastore saves every row, and no trace is written; the backend
    returns the answer and the [context_used] flag, and no trace either. *)
Lemma no_trace_is_written :
  snd (sendMessage Samples.saving Samples.chain "stack-1" "session-1"
         (Samples.typing "2+2?") [])
  = [ Insert "chat_messages"
        {| stack_id := "stack-1"; session_id := "session-1"; role := "user";
           content := "2+2?"; metadata_error := false |};
      Insert "chat_messages"
        {| stack_id := "stack-1"; session_id := "session-1"; role := "assistant";
           content := response_of (data_config Samples.llm_node) "" "2+2?";
           metadata_error := false |} ]
  /\ traces_written
       (snd (sendMessage Samples.saving Samples.chain "stack-1" "session-1"
               (Samples.typing "2+2?") [])) <> 1
  /\ Backend.execute Samples.up Samples.chain "2+2?" "stack-1" []
     = (Returned {| Backend.response := "4";
                    Backend.meta := {| Backend.context_used := false |} |},
        [Backend.ChatCompletionsCreate
           (Backend.completion_request (data_config Samples.llm_node)
              "Answer 2+2? using " "2+2?")]).
Proof. split; [reflexivity|]. split; [discriminate | reflexivity]. Qed.

Example failed_execution_is_noticed :
  snd (sendMessage Samples.saving Samples.kb_only "stack-1" "session-1"
         (Samples.typing " hello ") [])
  = [ Insert "chat_messages"
        {| stack_id := "stack-1"; session_id := "session-1"; role := "user";
           content := "hello"; metadata_error := false |};
      Insert "chat_messages"
        {| stack_id := "stack-1"; session_id := "session-1"; role := "assistant";
           content := error_notice; metadata_error := true |} ].
Proof. reflexivity. Qed.

End Trace.

(** * Further properties *)

(** ** More on chunking *)

Module ChunkMore.
Import StringFacts DocumentProcessor Shape.

Lemma split_from_empty_iff (s : string) :
  Py.split_from "" s = [] <-> all_space s = true.
Proof.
  induction s as [|c s IH]; simpl; [tauto|].
  destruct (Py.isspace c) eqn:Hc; simpl; [exact IH|].
  split; [|discriminate].
  intros H. now apply SplitFacts.split_from_nonempty in H.
Qed.

Lemma groups_of_no_words (n : Z) : chunk_groups n [] = [].
Proof. reflexivity. Qed.


(** X1. [chunk_text] gives no chunk exactly for the texts made of
    whitespace only, whatever the chunk size. *)
Theorem chunk_text_empty_iff (text : string) (chunk_size : Z) :
  chunk_text text chunk_size = [] <-> all_space text = true.
Proof.
  rewrite <- split_from_empty_iff. fold (Py.split text).
  rewrite ChunkFacts.chunk_text_groups.
  destruct (ChunkFacts.chunk_groups_spec chunk_size (Py.split text)) as (Hw & _).
  split.
  - intros H. apply map_eq_nil in H. now rewrite H in Hw.
  - intros H. now rewrite H.
Qed.

Lemma in_concat_group (g : list string) (gs : list (list string)) (w : string) :
  In g gs -> In w g -> In w (List.concat gs).
Proof. intros Hg Hw. apply in_concat. eauto. Qed.

(** X2. No chunk is longer than the chunk size (1 at least) plus the
    longest word: when every word of the text has at most [bound]
    characters, every chunk has fewer than [max chunk_size 1 + bound]. *)
Theorem chunk_length_bound (text : string) (chunk_size : Z) (bound : nat) :
  words_within bound (Py.split text) ->
  Forall (fun c => (Z.of_nat (String.length c) < Z.max chunk_size 1 + Z.of_nat bound)%Z)
         (chunk_text text chunk_size).
Proof.
  intros Hbound. unfold words_within in Hbound.
  rewrite ChunkFacts.chunk_text_groups.
  destruct (ChunkFacts.chunk_groups_spec chunk_size (Py.split text))
    as (Hw & Hne & Hmin & _).
  apply Forall_map. rewrite Forall_forall in *. intros g Hg.
  pose proof (Hne g Hg) as Hg_ne. pose proof (Hmin g Hg) as Hg_min.
  pose proof (ChunkFacts.length_join g Hg_ne) as Hlen.
  destruct (exists_last Hg_ne) as (p & w & ->).
  assert (Hin : In w (Py.split text)).
  { rewrite <- Hw. eapply in_concat_group; [exact Hg|]. apply in_or_app. right. now left. }
  apply Hbound in Hin. rewrite ChunkFacts.acc_len_app in Hlen.
  rewrite (ChunkFacts.acc_len_cons w []) in Hlen.
  change (acc_len []) with 0%Z in Hlen.
  generalize dependent (String.length (Py.join " " (p ++ [w]))). intros L Hlen.
  destruct p as [|x p].
  - change (acc_len []) with 0%Z in Hlen. lia.
  - assert (Hp : (acc_len (x :: p) < chunk_size)%Z).
    { apply (Hg_min (x :: p) [w]); [reflexivity | discriminate | discriminate]. }
    lia.
Qed.

Lemma chunk_length_bound_witness :
  words_within 5 (Py.split "alpha beta gamma delta")
  /\ Forall (fun c => (Z.of_nat (String.length c) < Z.max 8 1 + Z.of_nat 5)%Z)
            (chunk_text "alpha beta gamma delta" 8).
Proof.
  assert (H : words_within 5 (Py.split "alpha beta gamma delta")).
  { unfold words_within. vm_compute Py.split.
    repeat (constructor; [simpl; lia|]). constructor. }
  split; [exact H | exact (chunk_length_bound _ 8 5 H)].
Defined.

Lemma step_singleton (n : Z) (w : string) (G : list (list string)) :
  (n <= 2)%Z -> is_word w ->
  g_step n {| groups := G; g_current := []; g_size := 0 |} w
  = {| groups := G ++ [[w]]; g_current := []; g_size := 0 |}.
Proof.
  intros Hn (Hne & _). unfold g_step. cbn [groups g_current g_size app].
  destruct w as [|c w]; [discriminate|].
  destruct (Z.geb_spec (0 + (Z.of_nat (String.length (String c w)) + 1)) n) as [_|Hlt];
    [reflexivity|].
  cbn [String.length] in Hlt. lia.
Qed.

Lemma fold_singletons (n : Z) (ws : list string) :
  (n <= 2)%Z -> Forall is_word ws ->
  forall G,
    fold_left (g_step n) ws {| groups := G; g_current := []; g_size := 0 |}
    = {| groups := G ++ map (fun w => [w]) ws; g_current := []; g_size := 0 |}.
Proof.
  intros Hn. induction 1 as [|w ws Hw Hws IH]; intros G.
  - cbn [fold_left map]. now rewrite app_nil_r.
  - cbn [fold_left map]. rewrite step_singleton by assumption.
    rewrite IH. now rewrite <- app_assoc.
Qed.

(** X3. With a chunk size of 2 or less (zero and negative sizes
    included) every word is a chunk of its own. *)
Theorem chunk_text_tiny_size (text : string) (chunk_size : Z) :
  (chunk_size <= 2)%Z -> chunk_text text chunk_size = Py.split text.
Proof.
  intros Hn. rewrite ChunkFacts.chunk_text_groups. unfold chunk_groups, g_initial.
  rewrite (fold_singletons chunk_size _ Hn (SplitFacts.split_words text)).
  unfold g_finish. simpl. rewrite map_map. simpl. apply map_id.
Qed.

Lemma chunk_text_tiny_size_witness :
  (-3 <= 2)%Z /\ chunk_text "to be or not" (-3) = ["to"; "be"; "or"; "not"].
Proof. split; [lia | exact (chunk_text_tiny_size "to be or not" (-3) ltac:(lia))]. Defined.

Lemma split_from_word (w : string) :
  no_space w = true ->
  forall cur s, Py.split_from cur (w ++ s)%string = Py.split_from (cur ++ w)%string s.
Proof.
  induction w as [|c w IH]; intros Hw cur s; simpl.
  - now rewrite append_nil_r.
  - simpl in Hw. apply andb_true_iff in Hw as [Hc Hw].
    apply negb_true_iff in Hc. rewrite Hc, IH by assumption.
    now rewrite append_assoc.
Qed.

Lemma split_from_space (cur s : string) :
  Py.nonempty cur = true ->
  Py.split_from cur (" " ++ s)%string = cur :: Py.split_from "" s.
Proof. intros H. cbn. now rewrite H. Qed.

Lemma split_from_end (cur : string) :
  Py.nonempty cur = true -> Py.split_from cur "" = [cur].
Proof. intros H. cbn. now rewrite H. Qed.

(** Splitting what was joined gives the words back. *)
Lemma split_join (ws : list string) :
  Forall is_word ws -> Py.split (Py.join " " ws) = ws.
Proof.
  unfold Py.split. induction 1 as [|w ws (Hne & Hsp) Hws IH]; [reflexivity|].
  destruct ws as [|w' ws].
  - change (Py.join " " [w]) with w. rewrite <- (append_nil_r w) at 1.
    rewrite split_from_word by assumption. now apply split_from_end.
  - rewrite join_cons by discriminate.
    rewrite split_from_word by assumption.
    change ("" ++ w)%string with w.
    rewrite split_from_space by assumption. now rewrite IH.
Qed.

(** X4. Chunking is idempotent on its own output: the chunks joined with
    single spaces are chunked into the same chunks. *)
Theorem chunk_text_idempotent (text : string) (chunk_size : Z) :
  chunk_text (Py.join " " (chunk_text text chunk_size)) chunk_size
  = chunk_text text chunk_size.
Proof.
  assert (Hjoin : Py.join " " (chunk_text text chunk_size) = Py.join " " (Py.split text)).
  { rewrite ChunkFacts.chunk_text_groups.
    destruct (ChunkFacts.chunk_groups_spec chunk_size (Py.split text)) as (Hw & Hne & _).
    rewrite join_groups by assumption. now rewrite Hw. }
  rewrite Hjoin. unfold chunk_text at 1.
  now rewrite (split_join _ (SplitFacts.split_words text)).
Qed.

Lemma length_concat_groups (gs : list (list string)) :
  Forall (fun g => g <> []) gs -> List.length gs <= List.length (List.concat gs).
Proof.
  induction 1 as [|g gs Hg Hgs IH]; simpl; [lia|].
  rewrite length_app. destruct g; [congruence | simpl; lia].
Qed.

Lemma join_words_nonempty (g : list string) :
  g <> [] -> Forall is_word g -> Py.join " " g <> "".
Proof.
  intros Hg Hw. destruct g as [|w g]; [congruence|].
  inversion Hw as [|? ? (Hne & _) _]; subst.
  destruct w as [|c w]; [discriminate|].
  destruct g; simpl; discriminate.
Qed.

(** X5. There are never more chunks than words, and no chunk is the empty
    string. *)
Theorem chunk_text_count (text : string) (chunk_size : Z) :
  List.length (chunk_text text chunk_size) <= List.length (Py.split text)
  /\ Forall (fun c => c <> "") (chunk_text text chunk_size).
Proof.
  rewrite ChunkFacts.chunk_text_groups.
  destruct (ChunkFacts.chunk_groups_spec chunk_size (Py.split text)) as (Hw & Hne & _).
  split.
  - rewrite length_map. rewrite <- Hw at 2. now apply length_concat_groups.
  - apply Forall_map. rewrite Forall_forall in *. intros g Hg.
    apply join_words_nonempty; [now apply Hne|].
    pose proof (SplitFacts.split_words text) as Hwords. rewrite <- Hw in Hwords.
    rewrite Forall_forall in *. intros w Hin. apply Hwords.
    eapply in_concat_group; eassumption.
Qed.

End ChunkMore.

(** ** Editing and validation *)

Module EditingFacts.
Import Workflow Editing.

Lemma has_type_with_config (t : string) (n : node) (c : config) :
  has_type t (with_config n c) = has_type t n.
Proof. reflexivity. Qed.

Lemma update_types (nodeId : string) (c : config) (nds : list node) :
  map type (updateNodeConfig nodeId c nds) = map type nds.
Proof.
  unfold updateNodeConfig. rewrite map_map. apply map_ext.
  intros n. now destruct (id n =? nodeId)%string.
Qed.

Lemma update_ids (nodeId : string) (c : config) (nds : list node) :
  map id (updateNodeConfig nodeId c nds) = map id nds.
Proof.
  unfold updateNodeConfig. rewrite map_map. apply map_ext.
  intros n. now destruct (id n =? nodeId)%string.
Qed.

(** X6. After [updateNodeConfig] the nodes keep their order, ids and
    types; every node with the given id carries the new configuration, and
    every other node is untouched. *)
Theorem updateNodeConfig_lookup (nodeId : string) (c : config) (nds : list node) :
  map id (updateNodeConfig nodeId c nds) = map id nds
  /\ map type (updateNodeConfig nodeId c nds) = map type nds
  /\ (forall n, In n (updateNodeConfig nodeId c nds) ->
        id n = nodeId -> data_config n = c)
  /\ (forall i n, nth_error nds i = Some n -> id n <> nodeId ->
        nth_error (updateNodeConfig nodeId c nds) i = Some n).
Proof.
  split; [apply update_ids|]. split; [apply update_types|]. split.
  - intros n Hin Hid. unfold updateNodeConfig in Hin.
    apply in_map_iff in Hin as (m & <- & _).
    destruct (String.eqb_spec (id m) nodeId) as [_|Hne]; [reflexivity | contradiction].
  - intros i n Hnth Hid. unfold updateNodeConfig.
    rewrite nth_error_map, Hnth. simpl.
    now destruct (String.eqb_spec (id n) nodeId).
Qed.

(** X7. The last configuration written to a node wins, and writing to an
    id that no node has changes nothing. *)
Theorem updateNodeConfig_overwrite (nodeId : string) (c1 c2 : config)
    (nds : list node) :
  updateNodeConfig nodeId c2 (updateNodeConfig nodeId c1 nds)
  = updateNodeConfig nodeId c2 nds
  /\ ((forall n, In n nds -> id n <> nodeId) ->
      updateNodeConfig nodeId c1 nds = nds).
Proof.
  split.
  - unfold updateNodeConfig. rewrite map_map. apply map_ext. intros n.
    destruct (String.eqb_spec (id n) nodeId) as [Heq|Hne]; simpl.
    + now rewrite Heq, String.eqb_refl.
    + now destruct (String.eqb_spec (id n) nodeId).
  - intros Hnone. unfold updateNodeConfig. rewrite <- (map_id nds) at 2.
    apply map_ext_in. intros n Hin.
    now destruct (String.eqb_spec (id n) nodeId) as [Heq|_]; [apply Hnone in Hin|].
Qed.

Lemma existsb_update (t nodeId : string) (c : config) (nds : list node) :
  existsb (has_type t) (updateNodeConfig nodeId c nds) = existsb (has_type t) nds.
Proof.
  unfold updateNodeConfig. induction nds as [|n nds IH]; [reflexivity|].
  simpl. rewrite IH. f_equal. now destruct (id n =? nodeId)%string.
Qed.

(** X8. Editing a node's configuration never changes the answer of the
    editor's validation: a graph that passes keeps passing with any
    configuration, an empty API key included. *)
Theorem validateWorkflow_ignores_config (nodeId : string) (c : config)
    (w : workflow) :
  WorkflowEditor.validateWorkflow
    {| nodes := updateNodeConfig nodeId c (nodes w); edges := edges w |}
  = WorkflowEditor.validateWorkflow w.
Proof.
  unfold WorkflowEditor.validateWorkflow. simpl. now rewrite !existsb_update.
Qed.

Lemma existsb_add (t t' uuid : string) (nds : list node) :
  existsb (has_type t') (addComponent t uuid nds)
  = existsb (has_type t') nds || (t =? t')%string.
Proof.
  unfold addComponent. rewrite existsb_app. simpl. now rewrite orb_false_r.
Qed.

(** X9. Adding a component from the library keeps every node in place,
    puts one node of the chosen type with the default configuration at the
    end, and never makes a graph that passed the editor's validation fail
    it; the next component of that type is placed 50 further right and 50
    further down. *)
Theorem addComponent_grows (t uuid : string) (w : workflow) :
  (exists n, addComponent t uuid (nodes w) = nodes w ++ [n]
             /\ type n = t /\ data_config n = getDefaultConfig t
             /\ id n = (t ++ "-" ++ uuid)%string)
  /\ contains t {| nodes := addComponent t uuid (nodes w); edges := edges w |}
  /\ (WorkflowEditor.validateWorkflow w = true ->
      WorkflowEditor.validateWorkflow
        {| nodes := addComponent t uuid (nodes w); edges := edges w |} = true)
  /\ position t (addComponent t uuid (nodes w))
     = ((fst (position t (nodes w)) + 50)%Z, (snd (position t (nodes w)) + 50)%Z).
Proof.
  split; [eexists; repeat split|]. split; [|split].
  - eexists. split; [apply in_or_app; right; left; reflexivity | reflexivity].
  - unfold WorkflowEditor.validateWorkflow. cbn [nodes edges]. rewrite !existsb_add.
    intros H.
    apply andb_true_iff in H as [H He]. apply andb_true_iff in H as [H Ho].
    apply andb_true_iff in H as [Hu Hl].
    rewrite Hu, Hl, Ho, He. reflexivity.
  - assert (Hcount : existingCount t (addComponent t uuid (nodes w))
                     = existingCount t (nodes w) + 1).
    { unfold existingCount, addComponent. rewrite filter_app, length_app.
      cbn [filter]. unfold has_type at 2. cbn [type]. now rewrite String.eqb_refl. }
    unfold position. rewrite Hcount. cbn [fst snd]. f_equal; lia.
Qed.

Lemma find_add_present (t t' uuid : string) (nds : list node) (n : node) :
  find (has_type t') nds = Some n ->
  find (has_type t') (addComponent t uuid nds) = Some n.
Proof.
  unfold addComponent. induction nds as [|m nds IH]; simpl; [discriminate|].
  destruct (has_type t' m); [trivial | exact IH].
Qed.

Lemma find_add_other (t t' uuid : string) (nds : list node) :
  t <> t' ->
  find (has_type t') (addComponent t uuid nds) = find (has_type t') nds.
Proof.
  intros Hne. unfold addComponent. induction nds as [|m nds IH]; simpl.
  - unfold has_type. simpl. now destruct (String.eqb_spec t t').
  - destruct (has_type t' m); [reflexivity | exact IH].
Qed.

Lemma find_add_same (t t' uuid : string) (w : workflow) :
  contains t w ->
  find (has_type t') (addComponent t uuid (nodes w)) = find (has_type t') (nodes w).
Proof.
  intros Hc. destruct (String.eqb_spec t t') as [<-|Hne].
  - apply NodeFacts.contains_find in Hc as (n & Hn).
    rewrite Hn. now apply find_add_present.
  - now apply find_add_other.
Qed.

(** X10. Nodes are resolved by type and the first one wins: adding a
    second component of a type that the graph already has changes neither
    what the chat window's executor returns nor what the backend's
    [execute] does. *)
Theorem second_component_is_ignored {vector : Type} (P : Backend.providers vector)
    (t uuid : string) (w : workflow) (q stack_id : string)
    (log : list Backend.event) :
  contains t w ->
  let w' := {| nodes := addComponent t uuid (nodes w); edges := edges w |} in
  ChatInterface.executeWorkflow w' q = ChatInterface.executeWorkflow w q
  /\ Backend.execute P w' q stack_id log = Backend.execute P w q stack_id log.
Proof.
  intros Hc w'. split.
  - unfold ChatInterface.executeWorkflow, ChatInterface.executeWorkflow_locals.
    subst w'. simpl. now rewrite !(find_add_same t _ uuid w Hc).
  - unfold Backend.execute, Backend._find_node_by_type. subst w'. simpl.
    now rewrite !(find_add_same t _ uuid w Hc).
Qed.

Lemma second_component_is_ignored_witness :
  contains "llmEngine" Samples.chain
  /\ ChatInterface.executeWorkflow
       {| nodes := addComponent "llmEngine" "u2" (nodes Samples.chain);
          edges := edges Samples.chain |} "2+2?"
     = ChatInterface.executeWorkflow Samples.chain "2+2?".
Proof.
  assert (H : contains "llmEngine" Samples.chain).
  { exists Samples.llm_node. split; [right; left; reflexivity | reflexivity]. }
  split; [exact H|].
  apply (second_component_is_ignored Samples.up "llmEngine" "u2" Samples.chain
           "2+2?" "s1" [] H).
Defined.

Lemma validate_nodes_valid (vnc : node -> bool) (ns : list node) :
  Notes.valid (Notes.validate_nodes vnc ns) = forallb vnc ns.
Proof.
  induction ns as [|n ns IH]; [reflexivity|]. simpl.
  destruct (vnc n); [exact IH | reflexivity].
Qed.

(** X11. The validation of the notes accepts a graph exactly when the
    editor's validation accepts it and [validateNodeConfig] accepts every
    node: it is the stricter of the two. *)
Theorem notes_validation_is_stricter (vnc : node -> bool) (w : workflow) :
  Notes.valid (Notes.validateWorkflow vnc w)
  = WorkflowEditor.validateWorkflow w && forallb vnc (nodes w).
Proof.
  unfold Notes.validateWorkflow, WorkflowEditor.validateWorkflow.
  destruct (existsb (has_type "userQuery") (nodes w));
  destruct (existsb (has_type "llmEngine") (nodes w));
  destruct (existsb (has_type "output") (nodes w)); simpl; try reflexivity.
  destruct (edges w); simpl; [reflexivity|]. apply validate_nodes_valid.
Qed.

Lemma validate_nodes_first (vnc : node -> bool) (pre post : list node) (n : node) :
  forallb vnc pre = true -> vnc n = false ->
  Notes.validate_nodes vnc (pre ++ n :: post)
  = {| Notes.valid := false;
       Notes.error := Some ("Invalid config for " ++ id n)%string |}.
Proof.
  intros Hpre Hn. induction pre as [|m pre IH]; simpl.
  - now rewrite Hn.
  - simpl in Hpre. apply andb_true_iff in Hpre as [Hm Hpre]. rewrite Hm. now apply IH.
Qed.

Lemma validate_nodes_errors (vnc : node -> bool) (ns : list node) :
  (Notes.valid (Notes.validate_nodes vnc ns) = true
   <-> Notes.error (Notes.validate_nodes vnc ns) = None).
Proof.
  induction ns as [|n ns IH]; simpl; [tauto|].
  destruct (vnc n); simpl; [exact IH | split; discriminate].
Qed.

(** X12. The validation of the notes stops at the first problem and
    reports that one only: a result is valid exactly when it carries no
    error, and an invalid result carries one. On a graph with the three
    node types and an edge, the node named in the error is the first one,
    in the order of the nodes, that [validateNodeConfig] refuses. *)
Theorem notes_validation_reports_first (vnc : node -> bool) (w : workflow) :
  (Notes.valid (Notes.validateWorkflow vnc w) = true
   <-> Notes.errors (Notes.validateWorkflow vnc w) = [])
  /\ List.length (Notes.errors (Notes.validateWorkflow vnc w)) <= 1
  /\ (forall pre n post,
        WorkflowEditor.validateWorkflow w = true ->
        nodes w = pre ++ n :: post ->
        forallb vnc pre = true -> vnc n = false ->
        Notes.validateWorkflow vnc w
        = {| Notes.valid := false;
             Notes.error := Some ("Invalid config for " ++ id n)%string |}).
Proof.
  split; [|split].
  - unfold Notes.errors, Notes.validateWorkflow.
    destruct (_ || _ || _); [simpl; split; discriminate|].
    destruct (_ =? 0)%nat; [simpl; split; discriminate|].
    pose proof (validate_nodes_errors vnc (nodes w)) as H.
    destruct (Notes.error (Notes.validate_nodes vnc (nodes w))); simpl in *.
    + split; [intros Hv; apply H in Hv; discriminate | discriminate].
    + split; [reflexivity | intros _; now apply H].
  - unfold Notes.errors. destruct (Notes.error _); simpl; lia.
  - intros pre n post Hv Hnodes Hpre Hn.
    unfold Notes.validateWorkflow, WorkflowEditor.validateWorkflow in *.
    destruct (existsb (has_type "userQuery") (nodes w)); [|discriminate].
    destruct (existsb (has_type "llmEngine") (nodes w)); [|discriminate].
    destruct (existsb (has_type "output") (nodes w)); [|discriminate].
    simpl in *. destruct (edges w); [discriminate|]. simpl.
    rewrite Hnodes. now apply validate_nodes_first.
Qed.

Lemma find_update (t nodeId : string) (c : config) (nds : list node) :
  find (has_type t) (updateNodeConfig nodeId c nds)
  = option_map (fun n => if (id n =? nodeId)%string then with_config n c else n)
               (find (has_type t) nds).
Proof.
  unfold updateNodeConfig. induction nds as [|n nds IH]; [reflexivity|]. simpl.
  destruct (id n =? nodeId)%string eqn:Hid.
  - rewrite has_type_with_config. destruct (has_type t n); [simpl; now rewrite Hid | exact IH].
  - destruct (has_type t n); [simpl; now rewrite Hid | exact IH].
Qed.

(** X13. Uploading files in the configuration panel of the knowledge
    base that the executor uses (the first knowledgeBase node) keeps the
    files already there, in order, and adds the new ones after them; the
    chat window's executor then builds its context from the new count,
    which stands in the response. *)
Theorem upload_reaches_context (w : workflow) (kb : node)
    (files : list uploaded_file) (q : string) :
  find (has_type "knowledgeBase") (nodes w) = Some kb ->
  files <> [] ->
  let old := match uploadedFiles (data_config kb) with Some l => l | None => [] end in
  let c := handleFileUpload files (data_config kb) in
  let w' := {| nodes := updateNodeConfig (id kb) c (nodes w); edges := edges w |} in
  uploadedFiles c = Some (old ++ files)
  /\ (forall l, ChatInterface.executeWorkflow_locals w' q = Returned l ->
        ChatInterface.context l
        = ("[Context from " ++ Str.decimal (List.length old + List.length files)
           ++ " document(s)]")%string).
Proof.
  intros Hkb Hfiles old c w'. split; [reflexivity|].
  intros l. unfold ChatInterface.executeWorkflow_locals. subst w'. simpl.
  rewrite !find_update, Hkb. simpl. rewrite String.eqb_refl.
  destruct (find (has_type "llmEngine") (nodes w)); simpl; [|discriminate].
  intros [= <-]. simpl. fold old. rewrite length_app.
  destruct (0 <? List.length old + List.length files)%nat eqn:Hpos; [reflexivity|].
  apply Nat.ltb_ge in Hpos. destruct files; [congruence | simpl in Hpos; lia].
Qed.

Lemma upload_reaches_context_witness :
  find (has_type "knowledgeBase") (nodes Samples.kb_chain) = Some Samples.kb_node
  /\ forall l,
       ChatInterface.executeWorkflow_locals
         {| nodes :=
              updateNodeConfig (id Samples.kb_node)
                (handleFileUpload
                   [ {| file_id := "0.x"; file_name := "a.pdf"; file_size := 10 |} ]
                   (data_config Samples.kb_node))
                (nodes Samples.kb_chain);
            edges := edges Samples.kb_chain |} "2+2?" = Returned l ->
       ChatInterface.context l = "[Context from 1 document(s)]".
Proof.
  split; [reflexivity|].
  apply (upload_reaches_context Samples.kb_chain Samples.kb_node
           [ {| file_id := "0.x"; file_name := "a.pdf"; file_size := 10 |} ] "2+2?"
           eq_refl).
  discriminate.
Defined.

End EditingFacts.

(** ** Sending a chat message *)

Module ChatMore.
Import Workflow ChatInterface Shape.

Lemma trimStart_blank (s : string) : blank s = true -> Js.trimStart s = "".
Proof.
  induction s as [|c s IH]; [reflexivity|]. simpl.
  destruct (Js.isspace c); [exact IH | discriminate].
Qed.

Lemma trimStart_cases (s : string) :
  (Js.trimStart s = "" /\ blank s = true)
  \/ (exists c rest, Js.trimStart s = String c rest /\ Js.isspace c = false).
Proof.
  induction s as [|c s IH]; [left; split; reflexivity|]. simpl.
  destruct (Js.isspace c) eqn:Hc; [exact IH|].
  right. now exists c, s.
Qed.

Lemma trimEnd_empty (s : string) : Js.trimEnd s = "" -> blank s = true.
Proof.
  induction s as [|c s IH]; [reflexivity|]. simpl.
  destruct (Js.trimEnd s) eqn:Hs; [|discriminate].
  destruct (Js.isspace c); [intros _; now apply IH | discriminate].
Qed.

(** [trim] leaves nothing exactly for the blank texts. *)
Lemma trim_blank (s : string) : Js.truthy (Js.trim s) = false <-> blank s = true.
Proof.
  unfold Js.trim. split.
  - intros H. destruct (Js.trimEnd (Js.trimStart s)) eqn:Ht; [|discriminate].
    apply trimEnd_empty in Ht.
    destruct (trimStart_cases s) as [(_ & Hb) | (c & rest & Hs & Hc)]; [exact Hb|].
    rewrite Hs in Ht. simpl in Ht. now rewrite Hc in Ht.
  - intros H. now rewrite (trimStart_blank s H).
Qed.

(** X14. [sendMessage] does nothing when the input is blank (empty or
    white space only) or while an answer is awaited: the state is left as
    it is and nothing is written to the datastore. *)
Theorem sendMessage_guard (db : datastore) (w : workflow)
    (stackId sessionId : string) (st : state) (log : list db_event) :
  blank (input st) = true \/ loading st = true ->
  sendMessage db w stackId sessionId st log = (st, log).
Proof.
  intros H. unfold sendMessage.
  destruct H as [H|H].
  - apply trim_blank in H. now rewrite H.
  - rewrite H. now rewrite orb_true_r.
Qed.

Lemma sendMessage_guard_witness :
  (blank (input (Samples.typing "   ")) = true \/ loading (Samples.typing "   ") = true)
  /\ sendMessage Samples.saving Samples.chain "stack-1" "session-1"
       (Samples.typing "   ") []
     = (Samples.typing "   ", []).
Proof.
  assert (H : blank (input (Samples.typing "   ")) = true
              \/ loading (Samples.typing "   ") = true) by (left; reflexivity).
  split; [exact H|].
  exact (sendMessage_guard Samples.saving Samples.chain "stack-1" "session-1"
           (Samples.typing "   ") [] H).
Defined.

Lemma push_grows (saved : option chat_message) (ms : list chat_message) :
  exists added, push saved ms = ms ++ added /\ List.length added <= 1.
Proof.
  destruct saved as [m|]; simpl.
  - exists [m]. split; [reflexivity | simpl; lia].
  - exists []. split; [now rewrite app_nil_r | simpl; lia].
Qed.

Lemma recover_state (db : datastore) (stackId sessionId : string)
    (ms : list chat_message) (log : list db_event) :
  exists added,
    fst (recover db stackId sessionId ms log)
    = {| messages := ms ++ added; input := ""; loading := false |}
    /\ List.length added <= 1.
Proof.
  unfold recover. cbn [fst].
  destruct (push_grows (data (db log "chat_messages"
              {| stack_id := stackId; session_id := sessionId; role := "assistant";
                 content := error_notice; metadata_error := true |})) ms)
    as (added & -> & Hlen).
  now exists added.
Qed.

(** X15. When a message is sent, whatever happens afterwards (the
    datastore refuses a row, the executor throws), the input field is
    empty and [loading] is false again at the end, and the messages shown
    before are all kept, with two more at most after them. *)
Theorem sendMessage_settles (db : datastore) (w : workflow)
    (stackId sessionId : string) (st : state) (log : list db_event) :
  blank (input st) = false -> loading st = false ->
  exists added,
    fst (sendMessage db w stackId sessionId st log)
    = {| messages := messages st ++ added; input := ""; loading := false |}
    /\ List.length added <= 2.
Proof.
  intros Hin Hload. unfold sendMessage.
  assert (Ht : Js.truthy (Js.trim (input st)) = true).
  { destruct (Js.truthy (Js.trim (input st))) eqn:E; [reflexivity|].
    apply trim_blank in E. congruence. }
  rewrite Ht, Hload. cbn [negb orb].
  set (userMessage := {| stack_id := stackId; session_id := sessionId; role := "user";
                         content := Js.trim (input st); metadata_error := false |}).
  destruct (db_error (db log "chat_messages" userMessage)).
  - destruct (recover_state db stackId sessionId (messages st)
                (log ++ [Insert "chat_messages" userMessage])) as (added & -> & Hlen).
    exists added. split; [reflexivity | lia].
  - destruct (push_grows (data (db log "chat_messages" userMessage)) (messages st))
      as (a1 & -> & H1).
    destruct (executeWorkflow w (Js.trim (input st))) as [response|e].
    + set (assistantMessage :=
             {| stack_id := stackId; session_id := sessionId; role := "assistant";
                content := response; metadata_error := false |}).
      destruct (db_error (db (log ++ [Insert "chat_messages" userMessage])
                            "chat_messages" assistantMessage)).
      * destruct (recover_state db stackId sessionId (messages st ++ a1)
                    ((log ++ [Insert "chat_messages" userMessage])
                     ++ [Insert "chat_messages" assistantMessage]))
          as (a2 & -> & H2).
        exists (a1 ++ a2). rewrite app_assoc, length_app. split; [reflexivity | lia].
      * cbn [fst].
        destruct (push_grows (data (db (log ++ [Insert "chat_messages" userMessage])
                                      "chat_messages" assistantMessage))
                    (messages st ++ a1)) as (a2 & -> & H2).
        exists (a1 ++ a2). rewrite app_assoc, length_app. split; [reflexivity | lia].
    + destruct (recover_state db stackId sessionId (messages st ++ a1)
                  (log ++ [Insert "chat_messages" userMessage])) as (a2 & -> & H2).
      exists (a1 ++ a2). rewrite app_assoc, length_app. split; [reflexivity | lia].
Qed.

Lemma sendMessage_settles_witness :
  blank (input (Samples.typing " hello ")) = false
  /\ exists added,
       fst (sendMessage Samples.saving Samples.kb_only "stack-1" "session-1"
              (Samples.typing " hello ") [])
       = {| messages := messages (Samples.typing " hello ") ++ added;
            input := ""; loading := false |}
       /\ List.length added <= 2.
Proof.
  split; [reflexivity|].
  apply (sendMessage_settles Samples.saving Samples.kb_only "stack-1" "session-1"
           (Samples.typing " hello ") []); reflexivity.
Defined.

(** X16. With a datastore that refuses no row, a sent message is followed
    by exactly one reply row: the simulated response when the graph has an
    llmEngine node, and the error notice, marked as an error, when it has
    none. *)
Theorem sendMessage_reply (db : datastore) (w : workflow)
    (stackId sessionId : string) (st : state) (log : list db_event) :
  (forall l t r, db_error (db l t r) = None) ->
  blank (input st) = false -> loading st = false ->
  let sent := Js.trim (input st) in
  let userMessage :=
    {| stack_id := stackId; session_id := sessionId; role := "user";
       content := sent; metadata_error := false |} in
  (forall llm, find (has_type "llmEngine") (nodes w) = Some llm ->
     snd (sendMessage db w stackId sessionId st log)
     = log ++ [ Insert "chat_messages" userMessage;
                Insert "chat_messages"
                  {| stack_id := stackId; session_id := sessionId;
                     role := "assistant";
                     content :=
                       response_of (data_config llm)
                         (context_of (find (has_type "knowledgeBase") (nodes w))) sent;
                     metadata_error := false |} ])
  /\ (lacks "llmEngine" w ->
      snd (sendMessage db w stackId sessionId st log)
      = log ++ [ Insert "chat_messages" userMessage;
                 Insert "chat_messages"
                   {| stack_id := stackId; session_id := sessionId;
                      role := "assistant"; content := error_notice;
                      metadata_error := true |} ]).
Proof.
  intros Hdb Hin Hload sent userMessage.
  assert (Ht : Js.truthy (Js.trim (input st)) = true).
  { destruct (Js.truthy (Js.trim (input st))) eqn:E; [reflexivity|].
    apply trim_blank in E. congruence. }
  unfold sendMessage. rewrite Ht, Hload. cbn [negb orb].
  fold sent. fold userMessage. rewrite Hdb.
  unfold executeWorkflow, executeWorkflow_locals. split.
  - intros llm Hllm. rewrite Hllm. cbn [response]. rewrite Hdb. cbn [snd].
    now rewrite <- app_assoc.
  - intros Hl. apply NodeFacts.lacks_find in Hl. rewrite Hl.
    unfold recover. cbn [snd]. now rewrite <- app_assoc.
Qed.

Lemma saving_refuses_nothing (l : list db_event) (t : string) (r : new_message) :
  db_error (Samples.saving l t r) = None.
Proof. reflexivity. Qed.

Lemma sendMessage_reply_witness :
  blank (input (Samples.typing " hello ")) = false
  /\ snd (sendMessage Samples.saving Samples.kb_only "stack-1" "session-1"
            (Samples.typing " hello ") [])
     = [] ++ [ Insert "chat_messages"
                 {| stack_id := "stack-1"; session_id := "session-1"; role := "user";
                    content := Js.trim (input (Samples.typing " hello "));
                    metadata_error := false |};
               Insert "chat_messages"
                 {| stack_id := "stack-1"; session_id := "session-1";
                    role := "assistant"; content := error_notice;
                    metadata_error := true |} ].
Proof.
  split; [reflexivity|].
  apply (sendMessage_reply Samples.saving Samples.kb_only "stack-1" "session-1"
           (Samples.typing " hello ") [] saving_refuses_nothing eq_refl eq_refl).
  apply NodeFacts.lacks_find. reflexivity.
Defined.

End ChatMore.

(** ** More on the backend's execution *)

Module EngineMore.
Import Workflow Backend Shape.

Lemma strip_prefix_append (old after : string) :
  Str.strip_prefix old (old ++ after) = Some after.
Proof.
  induction old as [|a old IH]; [reflexivity|]. simpl.
  now rewrite Ascii.eqb_refl.
Qed.

(** [cut] finds an occurrence whenever there is one. *)
Lemma cut_complete (old s : string) : occurs old s -> Str.cut old s <> None.
Proof.
  intros (before & after & ->). induction before as [|c before IH].
  - simpl append. destruct (old ++ after)%string eqn:E; simpl;
      rewrite <- E, strip_prefix_append; discriminate.
  - simpl. destruct (Str.strip_prefix old _); [discriminate|].
    destruct (Str.cut old (before ++ old ++ after)) as [[b a]|]; [discriminate|].
    now apply IH.
Qed.

Lemma cut_absent (old s : string) : ~ occurs old s -> Str.cut old s = None.
Proof.
  intros H. destruct (Str.cut old s) as [[b a]|] eqn:E; [|reflexivity].
  exfalso. apply H. exists b, a. now apply ReplaceFacts.cut_spec.
Qed.

(** X17. The retrieved context and the query reach the language model's
    system message through the tokens of the prompt template only: with a
    template in which neither [{context}] nor [{query}] occurs (and web
    search off), the system message is the template itself, whatever was
    retrieved and asked. *)
Theorem tokenless_prompt_drops_context {vector : Type} (P : providers vector)
    (q ctx : string) (cfg : config) (log : list event) :
  let template :=
    match prompt cfg with Some p => p | None => "You are a helpful assistant." end in
  ~ occurs "{context}" template -> ~ occurs "{query}" template ->
  useWebSearch cfg <> Some true ->
  exists request,
    snd (generate_response P q ctx cfg log) = log ++ [ChatCompletionsCreate request]
    /\ req_messages request
       = [ {| turn_role := "system"; turn_content := template |};
           {| turn_role := "user"; turn_content := q |} ].
Proof.
  intros template Hc Hq Hweb. eexists. split.
  - now rewrite (EngineFacts.generate_response_plain P q ctx cfg log Hweb).
  - cbn [completion_request req_messages]. fold template.
    rewrite (ReplaceFacts.replace_absent "{context}" ctx template (cut_absent _ _ Hc)).
    now rewrite (ReplaceFacts.replace_absent "{query}" q template (cut_absent _ _ Hq)).
Qed.

Lemma no_occurrence (old s : string) : Str.cut old s = None -> ~ occurs old s.
Proof. intros H Ho. now apply cut_complete in Ho. Qed.

Lemma tokenless_prompt_drops_context_witness :
  ~ occurs "{context}" "You are a helpful assistant."
  /\ exists request,
       snd (generate_response Samples.up "what is the answer?" "the answer is 4"
              empty_config [])
       = [] ++ [ChatCompletionsCreate request]
       /\ req_messages request
          = [ {| turn_role := "system"; turn_content := "You are a helpful assistant." |};
              {| turn_role := "user"; turn_content := "what is the answer?" |} ].
Proof.
  assert (Hc : ~ occurs "{context}" "You are a helpful assistant.")
    by (apply no_occurrence; reflexivity).
  split; [exact Hc|].
  apply (tokenless_prompt_drops_context Samples.up "what is the answer?"
           "the answer is 4" empty_config [] Hc).
  - apply no_occurrence. reflexivity.
  - discriminate.
Defined.

(** X18. With a knowledgeBase node and no llmEngine node, [execute] first
    retrieves the context, calling the embedding service and the vector
    store, and only then raises 'LLM node not found'. *)
Theorem execute_retrieves_before_failing {vector : Type} (P : providers vector)
    (w : workflow) (q stack_id : string) (log : list event)
    (v : vector) (vs : list vector) (r : query_results) :
  contains "knowledgeBase" w -> lacks "llmEngine" w ->
  embeddings_create P log "text-embedding-3-large" [q] = Returned (v :: vs) ->
  collection_query P (log ++ [embed_query q]) ("stack_" ++ stack_id)%string v 3
  = Returned r ->
  execute P w q stack_id log
  = (Raised {| kind := "ValueError"; message := "LLM node not found" |},
     log ++ [embed_query q; query_store stack_id]).
Proof.
  intros Hkb Hllm Hemb Hq.
  apply NodeFacts.contains_find in Hkb as (kb & Hkb).
  apply NodeFacts.lacks_find in Hllm.
  unfold execute, _find_node_by_type. rewrite Hkb, Hllm.
  unfold bind at 1. unfold bind at 1.
  rewrite (EngineFacts.retrieve_answered P stack_id q log v vs r Hemb Hq).
  unfold raise. now rewrite <- app_assoc.
Qed.

Lemma execute_retrieves_before_failing_witness :
  contains "knowledgeBase" Samples.kb_only
  /\ execute Samples.up Samples.kb_only "q" "s1" []
     = (Raised {| kind := "ValueError"; message := "LLM node not found" |},
        [] ++ [embed_query "q"; query_store "s1"]).
Proof.
  assert (H : contains "knowledgeBase" Samples.kb_only).
  { exists Samples.kb_node. split; [left; reflexivity | reflexivity]. }
  split; [exact H|].
  apply (execute_retrieves_before_failing Samples.up Samples.kb_only "q" "s1" [] tt []
           {| documents := Some [["the answer is 4"]] |} H).
  - apply NodeFacts.lacks_find. reflexivity.
  - reflexivity.
  - reflexivity.
Defined.

(** X19. [execute] reads two things of the graph: whether it has a
    knowledgeBase node, and the configuration of its first llmEngine node.
    Two graphs that agree on these are executed alike, whatever their
    edges, their other nodes and the configuration of the knowledge
    base. *)
Theorem execute_reads_two_things {vector : Type} (P : providers vector)
    (w w' : workflow) (q stack_id : string) (log : list event) :
  (lacks "knowledgeBase" w <-> lacks "knowledgeBase" w') ->
  option_map data_config (find (has_type "llmEngine") (nodes w))
  = option_map data_config (find (has_type "llmEngine") (nodes w')) ->
  execute P w q stack_id log = execute P w' q stack_id log.
Proof.
  intros Hkb Hllm. unfold execute, _find_node_by_type.
  assert (Hctx : (match find (has_type "knowledgeBase") (nodes w) with
                  | Some _ => _retrieve_context P stack_id q
                  | None => ret ""
                  end)
                 = (match find (has_type "knowledgeBase") (nodes w') with
                    | Some _ => _retrieve_context P stack_id q
                    | None => ret ""
                    end)).
  { rewrite !NodeFacts.lacks_find in Hkb.
    destruct (find (has_type "knowledgeBase") (nodes w)),
             (find (has_type "knowledgeBase") (nodes w')); try reflexivity.
    - destruct Hkb as [_ Hkb]. specialize (Hkb eq_refl). discriminate.
    - destruct Hkb as [Hkb _]. specialize (Hkb eq_refl). discriminate. }
  rewrite Hctx.
  destruct (find (has_type "llmEngine") (nodes w)) as [l|],
           (find (has_type "llmEngine") (nodes w')) as [l'|];
    simpl in Hllm; try discriminate; [|reflexivity].
  injection Hllm as ->. reflexivity.
Qed.

Lemma execute_reads_two_things_witness :
  (lacks "knowledgeBase" Samples.chain <-> lacks "knowledgeBase" Samples.llm_only)
  /\ execute Samples.up Samples.chain "2+2?" "s1" []
     = execute Samples.up Samples.llm_only "2+2?" "s1" [].
Proof.
  assert (H : lacks "knowledgeBase" Samples.chain
              <-> lacks "knowledgeBase" Samples.llm_only).
  { rewrite !NodeFacts.lacks_find. split; reflexivity. }
  split; [exact H|].
  exact (execute_reads_two_things Samples.up Samples.chain Samples.llm_only
           "2+2?" "s1" [] H eq_refl).
Defined.

(** X20. When retrieval answers, the context is the first list of
    documents of the answer, joined with newlines (the other lists are not
    read); generation runs with it, and what [execute] returns carries
    [context_used] exactly when that text is not empty. *)
Theorem execute_uses_first_documents {vector : Type} (P : providers vector)
    (w : workflow) (q stack_id : string) (log : list event)
    (v : vector) (vs : list vector) (first : list string)
    (others : list (list string)) (llm : node) :
  contains "knowledgeBase" w ->
  find (has_type "llmEngine") (nodes w) = Some llm ->
  embeddings_create P log "text-embedding-3-large" [q] = Returned (v :: vs) ->
  collection_query P (log ++ [embed_query q]) ("stack_" ++ stack_id)%string v 3
  = Returned {| documents := Some (first :: others) |} ->
  let ctx := Py.join Str.nl first in
  let log' := (log ++ [embed_query q]) ++ [query_store stack_id] in
  execute P w q stack_id log
  = (match fst (generate_response P q ctx (data_config llm) log') with
     | Returned answer =>
         Returned {| response := answer;
                     meta := {| context_used := Py.nonempty ctx |} |}
     | Raised e => Raised e
     end,
     snd (generate_response P q ctx (data_config llm) log')).
Proof.
  intros Hkb Hllm Hemb Hq ctx log'.
  apply (EngineFacts.execute_retrieved P w q stack_id ctx log log' llm Hkb Hllm).
  exact (EngineFacts.retrieve_answered P stack_id q log v vs _ Hemb Hq).
Qed.

Lemma execute_uses_first_documents_witness :
  contains "knowledgeBase" Samples.kb_chain
  /\ execute Samples.up Samples.kb_chain "what is the answer?" "s1" []
     = (Returned {| response := "4"; meta := {| context_used := true |} |},
        [ embed_query "what is the answer?"; query_store "s1";
          ChatCompletionsCreate
            (completion_request (data_config Samples.llm_node)
               "Answer what is the answer? using the answer is 4"
               "what is the answer?") ]).
Proof.
  assert (H : contains "knowledgeBase" Samples.kb_chain).
  { exists Samples.kb_node. split; [right; left; reflexivity | reflexivity]. }
  split; [exact H|].
  rewrite (execute_uses_first_documents Samples.up Samples.kb_chain
             "what is the answer?" "s1" [] tt [] ["the answer is 4"] []
             Samples.llm_node H eq_refl eq_refl eq_refl).
  reflexivity.
Defined.

(** X21. When the embedding service answers with no vector at all,
    [_retrieve_context] raises an IndexError and the vector store is not
    queried. *)
Theorem retrieve_without_vector {vector : Type} (P : providers vector)
    (stack_id q : string) (log : list event) :
  embeddings_create P log "text-embedding-3-large" [q] = Returned [] ->
  _retrieve_context P stack_id q log
  = (Raised {| kind := "IndexError"; message := "list index out of range" |},
     log ++ [embed_query q]).
Proof.
  intros H. unfold _retrieve_context, generate_embeddings, bind, call, raise.
  now rewrite H.
Qed.

Lemma retrieve_without_vector_witness :
  _retrieve_context MoreSamples.no_vector "s1" "q" []
  = (Raised {| kind := "IndexError"; message := "list index out of range" |},
     [] ++ [embed_query "q"]).
Proof. exact (retrieve_without_vector MoreSamples.no_vector "s1" "q" [] eq_refl). Defined.

(** X22. One generation makes one search at most and one call to the
    language model at most, the search first: its calls are the call to
    the model alone, the search alone (when it failed), or the search
    followed by the call to the model. *)
Theorem generate_response_call_pattern {vector : Type} (P : providers vector)
    (q ctx : string) (cfg : config) (log : list event) :
  exists calls,
    snd (generate_response P q ctx cfg log) = log ++ calls
    /\ ((exists request, calls = [ChatCompletionsCreate request])
        \/ (calls = [SerpGet q (webSearchApiKey cfg)]
            /\ exists e, fst (generate_response P q ctx cfg log) = Raised e)
        \/ (exists request,
              calls = [SerpGet q (webSearchApiKey cfg); ChatCompletionsCreate request])).
Proof.
  destruct (useWebSearch cfg) as [[|]|] eqn:Hweb.
  - destruct (serp_get P log q (webSearchApiKey cfg)) as [results|e] eqn:Hserp.
    + rewrite (EngineFacts.generate_response_searched P q ctx cfg log results Hweb Hserp).
      cbn [snd]. eexists. rewrite <- app_assoc. split; [reflexivity|].
      right. right. eexists. reflexivity.
    + rewrite (EngineFacts.generate_response_search_failed P q ctx cfg log e Hweb Hserp).
      cbn [fst snd]. eexists. split; [reflexivity|]. right. left. split; eauto.
  - rewrite EngineFacts.generate_response_plain by congruence. cbn [snd].
    eexists. split; [reflexivity|]. left. eexists. reflexivity.
  - rewrite EngineFacts.generate_response_plain by congruence. cbn [snd].
    eexists. split; [reflexivity|]. left. eexists. reflexivity.
Qed.

End EngineMore.

(** ** Uploading a document *)

Module IngestFacts.
Import Ingest.

Lemma decimal_inj (m n : nat) : Str.decimal m = Str.decimal n -> m = n.
Proof.
  unfold Str.decimal. intros H.
  apply Unsigned.to_uint_inj.
  assert (Hnn : forall k, Nat.to_uint k <> Decimal.Nil).
  { intros k Hk. pose proof (Unsigned.of_to k) as Hof.
    rewrite Hk in Hof. simpl in Hof. subst k. discriminate. }
  pose proof (NilZero.usu (Nat.to_uint m) (Hnn m)) as Hm.
  pose proof (NilZero.usu (Nat.to_uint n) (Hnn n)) as Hn.
  rewrite H in Hm. congruence.
Qed.

Lemma doc_id_inj (m n : nat) :
  ("doc_" ++ Str.decimal m)%string = ("doc_" ++ Str.decimal n)%string -> m = n.
Proof. intros H. injection H as H. now apply decimal_inj. Qed.

Lemma NoDup_map_inj {A B : Type} (f : A -> B) (l : list A) :
  (forall x y, f x = f y -> x = y) -> NoDup l -> NoDup (map f l).
Proof.
  intros Hinj. induction 1 as [|x l Hx Hl IH]; simpl; constructor; [|exact IH].
  intros Hin. apply in_map_iff in Hin as (y & Hy & Hin).
  apply Hinj in Hy. now subst y.
Qed.

(** X23. The ids that [add_documents] gives the documents of one upload
    are pairwise distinct, one per document; and they depend on nothing
    but the position of the document: the ids of an upload are the first
    ids of any upload with at least as many documents, so two uploads
    into one collection use the same ids. *)
Theorem doc_ids_collide (m n : nat) :
  m <= n ->
  NoDup (doc_ids n) /\ List.length (doc_ids n) = n
  /\ doc_ids m = firstn m (doc_ids n).
Proof.
  intros Hmn. unfold doc_ids. split; [|split].
  - apply NoDup_map_inj; [exact doc_id_inj | apply seq_NoDup].
  - now rewrite length_map, length_seq.
  - rewrite firstn_map. f_equal.
    replace n with (m + (n - m)) by lia.
    rewrite seq_app, firstn_app, length_seq, Nat.sub_diag. simpl.
    rewrite app_nil_r. symmetry. apply firstn_all2. rewrite length_seq. lia.
Qed.

Lemma doc_ids_collide_witness :
  2 <= 3 /\ doc_ids 2 = firstn 2 (doc_ids 3).
Proof.
  split; [lia|]. apply (doc_ids_collide 2 3). lia.
Defined.

Section Runs.

Context {vector : Type} (srv : services vector).

(** The run of [upload_document], service answer by service answer. *)
Lemma upload_run (filename stack_id : string) (log : list (call vector)) :
  let path := ("uploads/" ++ filename)%string in
  let name := ("stack_" ++ stack_id)%string in
  let log1 := log ++ [WriteFile path] in
  let log2 := log1 ++ [FitzOpen path] in
  upload_document srv filename stack_id log =
  match write_file srv log path with
  | Raised e => (Raised e, log1)
  | Returned _ =>
    match fitz_open srv log1 path with
    | Raised e => (Raised e, log2)
    | Returned pages =>
      let chunks := DocumentProcessor.chunk_text (text_of pages) 1000 in
      let log3 := log2 ++ [EmbeddingsCreate "text-embedding-3-large" chunks] in
      match embeddings_create srv log2 "text-embedding-3-large" chunks with
      | Raised e => (Raised e, log3)
      | Returned vectors =>
        let log4 := log3 ++ [GetCollection name] in
        let log5 := log4 ++ [CollectionAdd name (the_request (text_of pages) vectors)] in
        match get_collection srv log3 name with
        | Raised e => (Raised e, log4)
        | Returned _ =>
          match collection_add srv log4 name (the_request (text_of pages) vectors) with
          | Raised e => (Raised e, log5)
          | Returned _ =>
              (Returned {| success := true; chunks := List.length chunks |}, log5)
          end
        end
      end
    end
  end.
Proof.
  intros path name log1 log2.
  unfold upload_document, extract_text, generate_embeddings, add_documents,
    bind, perform, ret.
  fold path. fold name. fold log1.
  destruct (write_file srv log path); [|reflexivity].
  fold log2. destruct (fitz_open srv log1 path) as [pages|]; [|reflexivity].
  fold (text_of pages).
  destruct (embeddings_create srv log2 "text-embedding-3-large"
              (DocumentProcessor.chunk_text (text_of pages) 1000)) as [vectors|];
    [|reflexivity].
  destruct (get_collection srv _ name); [|reflexivity].
  fold (the_request (text_of pages) vectors).
  now destruct (collection_add srv _ name _).
Qed.

End Runs.

Lemma fold_append (pages : list string) (acc : string) :
  fold_left (fun t p => (t ++ p)%string) pages acc
  = (acc ++ String.concat "" pages)%string.
Proof.
  revert acc. induction pages as [|p ps IH]; intros acc.
  - simpl. now rewrite StringFacts.append_nil_r.
  - cbn [fold_left]. rewrite IH. rewrite StringFacts.append_assoc. f_equal.
    destruct ps as [|p' ps]; [apply StringFacts.append_nil_r | reflexivity].
Qed.

(** The extracted text is the pages, one after the other. *)
Lemma text_of_concat (pages : list string) : text_of pages = String.concat "" pages.
Proof. apply (fold_append pages ""). Qed.

Lemma the_request_well_formed {vector : Type} (stack_id text : string)
    (vectors : list vector) :
  MoreSamples.well_formed_add stack_id
    (CollectionAdd ("stack_" ++ stack_id)%string (the_request text vectors)).
Proof. simpl. repeat split. now exists text. Qed.

(** X24. Whatever the services answer, an upload inserts into the
    collection of its stack only, once at most, and the insertion is well
    formed: as many ids and chunk indices as documents, the ids doc_0,
    doc_1, ... and the indices 0, 1, ... in order, the documents being the
    chunks of the extracted text at chunk size 1000. *)
Theorem upload_inserts_well_formed {vector : Type} (srv : services vector)
    (filename stack_id : string) (log : list (call vector)) :
  exists calls,
    snd (upload_document srv filename stack_id log) = log ++ calls
    /\ Forall (MoreSamples.well_formed_add stack_id) calls
    /\ List.length (filter (fun ev => match ev with CollectionAdd _ _ => true | _ => false end)
                      calls) <= 1.
Proof.
  rewrite upload_run.
  destruct (write_file srv log _).
  2:{ eexists. split; [reflexivity|]. split; [repeat constructor | simpl; lia]. }
  destruct (fitz_open srv _ _) as [pages|].
  2:{ eexists. cbn [snd]. rewrite <- !app_assoc. split; [reflexivity|].
      split; [repeat constructor | simpl; lia]. }
  cbn zeta.
  destruct (embeddings_create srv _ _ _) as [vectors|].
  2:{ eexists. cbn [snd]. rewrite <- !app_assoc. split; [reflexivity|].
      split; [repeat constructor | simpl; lia]. }
  destruct (get_collection srv _ _).
  2:{ eexists. cbn [snd]. rewrite <- !app_assoc. split; [reflexivity|].
      split; [repeat constructor | simpl; lia]. }
  assert (Hlog : exists calls,
            ((((log ++ [WriteFile ("uploads/" ++ filename)%string])
               ++ [FitzOpen ("uploads/" ++ filename)%string])
              ++ [EmbeddingsCreate "text-embedding-3-large"
                    (DocumentProcessor.chunk_text (text_of pages) 1000)])
             ++ [GetCollection ("stack_" ++ stack_id)%string])
            ++ [CollectionAdd ("stack_" ++ stack_id)%string
                  (the_request (text_of pages) vectors)]
            = log ++ calls
            /\ Forall (MoreSamples.well_formed_add stack_id) calls
            /\ List.length
                 (filter (fun ev => match ev with CollectionAdd _ _ => true | _ => false end)
                    calls) <= 1).
  { eexists. rewrite <- !app_assoc. split; [reflexivity|]. split.
    - do 4 (apply Forall_cons; [exact Logic.I|]).
      apply Forall_cons; [apply the_request_well_formed | apply Forall_nil].
    - simpl. lia. }
  destruct (collection_add srv _ _ _); exact Hlog.
Qed.

(** X25. When the file is written, the text extracted, the chunks
    embedded and the collection found, and the insertion is accepted, the
    upload answers with success and the number of chunks of the text, the
    pages being concatenated in order; it has made five calls, the
    last one the insertion of the chunks with the vectors as the
    embedding service gave them. *)
Theorem upload_document_success {vector : Type} (srv : services vector)
    (filename stack_id : string) (log : list (call vector))
    (pages : list string) (vectors : list vector) :
  let path := ("uploads/" ++ filename)%string in
  let name := ("stack_" ++ stack_id)%string in
  let text := String.concat "" pages in
  let chunks := DocumentProcessor.chunk_text text 1000 in
  let log1 := log ++ [WriteFile path] in
  let log2 := log1 ++ [FitzOpen path] in
  let log3 := log2 ++ [EmbeddingsCreate "text-embedding-3-large" chunks] in
  let log4 := log3 ++ [GetCollection name] in
  write_file srv log path = Returned tt ->
  fitz_open srv log1 path = Returned pages ->
  embeddings_create srv log2 "text-embedding-3-large" chunks = Returned vectors ->
  get_collection srv log3 name = Returned tt ->
  collection_add srv log4 name (the_request text vectors) = Returned tt ->
  upload_document srv filename stack_id log
  = (Returned {| success := true; chunks := List.length chunks |},
     log4 ++ [CollectionAdd name (the_request text vectors)]).
Proof.
  intros path name text chunks log1 log2 log3 log4 Hw Hf He Hg Ha.
  pose proof (text_of_concat pages) as Htext. fold text in Htext.
  rewrite upload_run. fold path name log1 log2. rewrite Hw, Hf. cbn zeta.
  rewrite Htext. fold chunks log3. rewrite He. fold log4. rewrite Hg, Ha.
  reflexivity.
Qed.

Lemma upload_document_success_witness :
  upload_document (answering "the answer is 4") "a.pdf" "s1" []
  = (Returned {| success := true; chunks := 1 |},
     [ WriteFile "uploads/a.pdf"; FitzOpen "uploads/a.pdf";
       EmbeddingsCreate "text-embedding-3-large" ["the answer is 4"];
       GetCollection "stack_s1";
       CollectionAdd "stack_s1"
         {| add_documents_ := ["the answer is 4"]; add_embeddings := [tt];
            add_metadatas := [ {| chunk_index := 0 |} ]; add_ids := ["doc_0"] |} ]).
Proof.
  exact (upload_document_success (answering "the answer is 4") "a.pdf" "s1" []
           ["the answer is 4"] [tt] eq_refl eq_refl eq_refl eq_refl eq_refl).
Defined.

(** X26. When the embedding service fails during an upload, the error
    leaves [upload_document] and the collection is not touched; the file
    has been written under uploads/ by then and stays there. *)
Theorem upload_embedding_failure {vector : Type} (srv : services vector)
    (filename stack_id : string) (log : list (call vector))
    (pages : list string) (e : exn) :
  let path := ("uploads/" ++ filename)%string in
  let chunks := DocumentProcessor.chunk_text (String.concat "" pages) 1000 in
  write_file srv log path = Returned tt ->
  fitz_open srv (log ++ [WriteFile path]) path = Returned pages ->
  embeddings_create srv ((log ++ [WriteFile path]) ++ [FitzOpen path])
    "text-embedding-3-large" chunks = Raised e ->
  exists calls,
    upload_document srv filename stack_id log = (Raised e, log ++ calls)
    /\ In (WriteFile path) calls
    /\ Forall (fun ev => is_add ev = false) calls.
Proof.
  intros path chunks Hw Hf He.
  pose proof (text_of_concat pages) as Htext.
  rewrite upload_run. fold path. rewrite Hw, Hf. cbn zeta. rewrite Htext.
  fold chunks. rewrite He.
  exists [WriteFile path; FitzOpen path; EmbeddingsCreate "text-embedding-3-large" chunks].
  rewrite <- !app_assoc. split; [reflexivity|].
  split; [now left | repeat constructor].
Qed.

Lemma upload_embedding_failure_witness :
  exists calls,
    upload_document (embedding_down "the answer is 4") "a.pdf" "s1" []
    = (Raised {| kind := "ConnectionError"; message := "service unavailable" |},
       [] ++ calls)
    /\ In (WriteFile "uploads/a.pdf") calls
    /\ Forall (fun ev => is_add ev = false) calls.
Proof.
  exact (upload_embedding_failure (embedding_down "the answer is 4") "a.pdf" "s1" []
           ["the answer is 4"] _ eq_refl eq_refl eq_refl).
Defined.



End IngestFacts.
